(** * A persistent software team: project state, role memory, milestone pipeline

    Shallow embedding of [software-team-persistent.py] and the properties of
    its state store, its per-role memory, its role agent and its orchestrator.

    Python objects are values of [pyval]; the two dataclasses are records;
    the files under [project_states/] and [agent_memories/] are a finite map
    from path to content; the clock, the text-generation service and the
    rendering of values that are not strings are the parameters of the
    development.  Every operation that can raise is a
    computation [M S A]: it takes the state, returns the state it leaves
    behind and either a result or the exception raised, so that what was
    mutated before a [raise] stays mutated, as in Python. *)

From stdpp Require Import gmap strings list pretty.
From Stdlib Require Import ZArith Ascii.

Local Open Scope string_scope.
Local Open Scope list_scope.
Set Warnings "-register-all".

(** ** Python values *)

(** [class ProjectStatus(Enum)]: a plain [Enum], neither [str] nor [int]. *)
Inductive ProjectStatus :=
  | NOT_STARTED | IN_PROGRESS | REVIEWING | TESTING | COMPLETED | ON_HOLD.

(** The [.value] of each member. *)
Definition value (s : ProjectStatus) : string :=
  match s with
  | NOT_STARTED => "not_started"
  | IN_PROGRESS => "in_progress"
  | REVIEWING => "reviewing"
  | TESTING => "testing"
  | COMPLETED => "completed"
  | ON_HOLD => "on_hold"
  end.

#[global] Instance ProjectStatus_eq_dec : EqDecision ProjectStatus.
Proof. solve_decision. Defined.

(** The objects the program stores in fields, dicts and lists.  A [VDict] is
    a dict with string keys in insertion order; [VEnum] is a member of
    [ProjectStatus], an object that is not a string. *)
Inductive pyval :=
  | VNone
  | VBool (b : bool)
  | VInt (z : Z)
  | VStr (s : string)
  | VList (l : list pyval)
  | VDict (d : list (string * pyval))
  | VEnum (e : ProjectStatus).

(** [type(v).__name__], as the messages of [TypeError] name the type of an
    object. *)
Definition type_name (v : pyval) : string :=
  match v with
  | VNone => "NoneType"
  | VBool _ => "bool"
  | VInt _ => "int"
  | VStr _ => "str"
  | VList _ => "list"
  | VDict _ => "dict"
  | VEnum _ => "ProjectStatus"
  end.

(** Association lists: dicts with string keys, in insertion order. *)
Fixpoint alist_get {V} (k : string) (d : list (string * V)) : option V :=
  match d with
  | [] => None
  | (k', v) :: r => if decide (k' = k) then Some v else alist_get k r
  end.

(** [d[k] = v]: an existing key keeps its position. *)
Fixpoint alist_set {V} (k : string) (v : V) (d : list (string * V)) : list (string * V) :=
  match d with
  | [] => [(k, v)]
  | (k', v') :: r =>
      if decide (k' = k) then (k, v) :: r else (k', v') :: alist_set k v r
  end.

Definition dict := list (string * pyval).

(** [d.get(k)] and [d[k] = v] on a dict of values. *)
Definition dict_get (k : string) (d : dict) : option pyval := alist_get k d.
Definition dict_set (k : string) (v : pyval) (d : dict) : dict := alist_set k v d.

Definition dict_keys (d : dict) : list string := d.*1.

(** [l[-5:]] *)
Definition last5 {A} (l : list A) : list A := drop (length l - 5) l.

(** ** JSON documents *)

Inductive json :=
  | JNull
  | JBool (b : bool)
  | JInt (z : Z)
  | JStr (s : string)
  | JList (l : list json)
  | JObj (d : list (string * json)).

(** What [json.dump]/[json.dumps] produce with the default encoder: [None]
    when the encoder meets an object it cannot serialize, which for the
    values of this program is a [ProjectStatus] member. *)
Fixpoint to_json (v : pyval) : option json :=
  match v with
  | VNone => Some JNull
  | VBool b => Some (JBool b)
  | VInt z => Some (JInt z)
  | VStr s => Some (JStr s)
  | VList l => JList <$> mapM to_json l
  | VDict d => JObj <$> mapM (fun kv => pair kv.1 <$> to_json kv.2) d
  | VEnum _ => None
  end.

(** What [json.load] returns: of two members with one key the later wins. *)
Fixpoint of_json (j : json) : pyval :=
  match j with
  | JNull => VNone
  | JBool b => VBool b
  | JInt z => VInt z
  | JStr s => VStr s
  | JList l => VList (of_json <$> l)
  | JObj d => VDict (foldl (fun acc kv => dict_set kv.1 (of_json kv.2) acc) [] d)
  end.

Definition json_serializable (v : pyval) : Prop := is_Some (to_json v).

(** ** Exceptions and computations *)

Inductive exn_class :=
  | TypeError | ValueError | KeyError | AttributeError | RuntimeError
  | JSONDecodeError | FileNotFoundError | ServiceError.

(** An exception object: its class and [str(e)]. *)
Record exn := Exn { exn_class_of : exn_class; exn_str : string }.

Inductive outcome (A : Type) :=
  | Returns (a : A)
  | Raises (e : exn).
Arguments Returns {A} a.
Arguments Raises {A} e.

Definition M (S A : Type) : Type := S -> S * outcome A.

Definition ret {S A} (a : A) : M S A := fun s => (s, Returns a).
Definition raise {S A} (e : exn) : M S A := fun s => (s, Raises e).
Definition bind {S A B} (m : M S A) (k : A -> M S B) : M S B :=
  fun s => match m s with
           | (s', Returns a) => k a s'
           | (s', Raises e) => (s', Raises e)
           end.
(** [try: m except Exception as e: h e] *)
Definition try_except {S A} (m : M S A) (h : exn -> M S A) : M S A :=
  fun s => match m s with
           | (s', Returns a) => (s', Returns a)
           | (s', Raises e) => h e s'
           end.
(** Run a computation on one component of the state. *)
Definition zoom {S T A} (proj : S -> T) (upd : T -> S -> S) (m : M T A) : M S A :=
  fun s => let '(t, r) := m (proj s) in (upd t s, r).

Declare Scope py_scope.
Delimit Scope py_scope with py.
Notation "'let*' x ':=' m 'in' k" := (bind m (fun x => k))
  (at level 10, x name, m at level 100, k at level 200) : py_scope.
Notation "m '>>' k" := (bind m (fun _ => k))
  (at level 100, k at level 200, right associativity) : py_scope.
Local Open Scope py_scope.

(** A step that cannot touch the state. *)
Definition lift {S A} (r : outcome A) : M S A := fun s => (s, r).

(** ** The world outside the process *)

(** A file holds the text of a JSON document, or text that is none: the
    default encoder writes chunk by chunk into the file that [open(path,'w')]
    has just emptied, so a [json.dump] that raises leaves an empty or
    unbalanced text behind. *)
Inductive file :=
  | JsonText (j : json)
  | NotJson.

(** One human message of a request: the context as [json.dumps] rendered it
    and the task, the two holes of the template of [_format_input]. *)
Record HumanMessage := { hm_context : json; hm_task : string }.
Record Request := { rq_system : string; rq_human : HumanMessage }.

Record World := {
  fs : gmap string file;
  clock : nat;
  requests : list Request
}.

Definition set_fs (f : gmap string file -> gmap string file) (w : World) : World :=
  {| fs := f (fs w); clock := clock w; requests := requests w |}.

(** A computation on the world, run next to an object [T] of the process,
    and a computation that also mutates that object. *)
Definition in_world {T A} (m : M World A) : M (World * T) A :=
  zoom fst (fun w s => (w, s.2)) m.
Definition get_obj {T} : M (World * T) T := fun s => (s, Returns s.2).
Definition modify_obj {T} (f : T -> T) : M (World * T) unit :=
  fun s => ((s.1, f s.2), Returns tt).

(** ** The data model *)

Module Milestone.
(** [@dataclass class Milestone].  The annotations are not enforced by
    Python, and [from_dict] stores whatever the document holds, so every
    field is a [pyval]. *)
Record t := {
  id : pyval;
  description : pyval;
  status : pyval;
  assigned_to : pyval;
  created_at : pyval;
  completed_at : pyval;
  feedback : pyval
}.
Definition fields : list string :=
  ["id"; "description"; "status"; "assigned_to"; "created_at";
   "completed_at"; "feedback"].
End Milestone.

Module ProjectState.
(** [@dataclass class ProjectState] *)
Record t := {
  project_id : pyval;
  name : pyval;
  requirements : pyval;
  status : pyval;
  created_at : pyval;
  updated_at : pyval;
  milestones : list Milestone.t;
  learning_points : pyval;
  team_feedback : pyval;
  current_milestone_id : pyval
}.
Definition fields : list string :=
  ["project_id"; "name"; "requirements"; "status"; "created_at";
   "updated_at"; "milestones"; "learning_points"; "team_feedback";
   "current_milestone_id"].
End ProjectState.

(** A name between single quotes, as the messages of [TypeError] show a
    keyword: the name itself, without the escapes of [repr]. *)
Definition quoted (k : string) : string := "'" +:+ k +:+ "'".

(** A hexadecimal digit of an escape of [repr]. *)
Definition hex_digit (n : nat) : ascii :=
  nth n (String.list_ascii_of_string "0123456789abcdef") "0"%char.

(** One character of [repr(k)] between the quotes [quote]: the quote and the
    backslash are escaped, tab, newline and return have their letters, and
    what [str.isprintable] refuses (the control characters, 127 to 160 and
    173) is written with its code. *)
Definition repr_char (quote c : ascii) : string :=
  let n := nat_of_ascii c in
  let backslash := ascii_of_nat 92 in
  if Ascii.eqb c quote || Ascii.eqb c backslash then String backslash (String c "")
  else if Nat.eqb n 9 then String backslash "t"
  else if Nat.eqb n 10 then String backslash "n"
  else if Nat.eqb n 13 then String backslash "r"
  else if Nat.ltb n 32 || Nat.eqb n 127 || (Nat.leb 128 n && Nat.leb n 160) || Nat.eqb n 173
  then String backslash
         (String "x" (String (hex_digit (n / 16)) (String (hex_digit (n mod 16)) "")))
  else String c "".

(** [repr(k)] of a string, which is [str(KeyError(k))]: between single
    quotes, unless the string holds a single quote and no double quote.  A
    character of a string is a code point below 256. *)
Definition repr_key (k : string) : string :=
  let chars := String.list_ascii_of_string k in
  let double := ascii_of_nat 34 in
  let quote :=
    if existsb (Ascii.eqb "'"%char) chars && negb (existsb (Ascii.eqb double) chars)
    then double else "'"%char in
  String quote (String.concat "" (repr_char quote <$> chars)) +:+ String quote "".

(** ["a"], ["a and b"], ["a, b, and c"]: how a message lists names. *)
Definition english_list (names : list string) : string :=
  match names with
  | [] => ""
  | [a] => a
  | [a; b] => a +:+ " and " +:+ b
  | _ => String.concat ", " (removelast names) +:+ ", and " +:+ List.last names ""
  end.

(** [asdict(milestone)]: fields in declaration order; [asdict] copies what is
    neither dataclass, list nor dict with [copy.deepcopy], which hands an
    enum member back as it is. *)
Definition asdict (m : Milestone.t) : pyval :=
  VDict [("id", Milestone.id m);
         ("description", Milestone.description m);
         ("status", Milestone.status m);
         ("assigned_to", Milestone.assigned_to m);
         ("created_at", Milestone.created_at m);
         ("completed_at", Milestone.completed_at m);
         ("feedback", Milestone.feedback m)].

(** [ProjectState.to_dict] *)
Definition to_dict (self : ProjectState.t) : pyval :=
  VDict [("project_id", ProjectState.project_id self);
         ("name", ProjectState.name self);
         ("requirements", ProjectState.requirements self);
         ("status", ProjectState.status self);
         ("created_at", ProjectState.created_at self);
         ("updated_at", ProjectState.updated_at self);
         ("milestones", VList (asdict <$> ProjectState.milestones self));
         ("learning_points", ProjectState.learning_points self);
         ("team_feedback", ProjectState.team_feedback self);
         ("current_milestone_id", ProjectState.current_milestone_id self)].

(** The first keyword that names no field, if any. *)
Definition unexpected_keyword (fields : list string) (kw : dict) : option string :=
  head (filter (fun k => k ∉ fields) (dict_keys kw)).

(** The message of the [TypeError] for the required fields that [kw] does
    not give, in the order of their declaration. *)
Definition missing_arguments (cls : string) (required : list string) (kw : dict) : string :=
  let missing :=
    List.filter (fun k => negb (bool_decide (is_Some (dict_get k kw)))) required in
  cls +:+ ".__init__() missing " +:+ pretty (length missing) +:+
  " required positional argument" +:+ (if Nat.eqb (length missing) 1 then "" else "s") +:+
  ": " +:+ english_list (quoted <$> missing).

(** The call [Milestone] with the keywords [kw], and its [__post_init__]:
    [completed_at] and [feedback] default to [None], and a [feedback] of
    [None] becomes []. *)
Definition Milestone_init (kw : dict) : outcome Milestone.t :=
  match unexpected_keyword Milestone.fields kw with
  | Some k =>
      Raises (Exn TypeError
        ("Milestone.__init__() got an unexpected keyword argument " +:+ quoted k))
  | None =>
      match dict_get "id" kw, dict_get "description" kw, dict_get "status" kw,
            dict_get "assigned_to" kw, dict_get "created_at" kw with
      | Some i, Some d, Some s, Some a, Some c =>
          Returns {| Milestone.id := i;
                     Milestone.description := d;
                     Milestone.status := s;
                     Milestone.assigned_to := a;
                     Milestone.created_at := c;
                     Milestone.completed_at := default VNone (dict_get "completed_at" kw);
                     Milestone.feedback :=
                       match default VNone (dict_get "feedback" kw) with
                       | VNone => VList []
                       | f => f
                       end |}
      | _, _, _, _, _ =>
          Raises (Exn TypeError
            (missing_arguments "Milestone"
               ["id"; "description"; "status"; "assigned_to"; "created_at"] kw))
      end
  end.

(** The call [Milestone] with the object [m] splatted into keywords; the
    message names the class by its module, [__main__] for the script. *)
Definition Milestone_splat (m : pyval) : outcome Milestone.t :=
  match m with
  | VDict kw => Milestone_init kw
  | _ =>
      Raises (Exn TypeError
        ("__main__.Milestone() argument after ** must be a mapping, not " +:+ type_name m))
  end.

(** [for x in v]: the elements of a list, the keys of a dict, the characters
    of a string. *)
Definition iterate (v : pyval) : outcome (list pyval) :=
  match v with
  | VList l => Returns l
  | VDict d => Returns (VStr <$> dict_keys d)
  | VStr s => Returns ((fun c => VStr (String c "")) <$> String.list_ascii_of_string s)
  | _ => Raises (Exn TypeError (quoted (type_name v) +:+ " object is not iterable"))
  end.

(** A list comprehension whose body can raise. *)
Fixpoint comprehension {A B} (f : A -> outcome B) (l : list A) : outcome (list B) :=
  match l with
  | [] => Returns []
  | x :: r =>
      match f x with
      | Raises e => Raises e
      | Returns y =>
          match comprehension f r with
          | Raises e => Raises e
          | Returns ys => Returns (y :: ys)
          end
      end
  end.

(** The call [cls] with [data] splatted into keywords, once
    [data['milestones']] holds the list [ms]. *)
Definition ProjectState_init (kw : dict) (ms : list Milestone.t) : outcome ProjectState.t :=
  match unexpected_keyword ProjectState.fields kw with
  | Some k =>
      Raises (Exn TypeError
        ("ProjectState.__init__() got an unexpected keyword argument " +:+ quoted k))
  | None =>
      match dict_get "project_id" kw, dict_get "name" kw,
            dict_get "requirements" kw, dict_get "status" kw,
            dict_get "created_at" kw, dict_get "updated_at" kw,
            dict_get "learning_points" kw, dict_get "team_feedback" kw,
            dict_get "current_milestone_id" kw with
      | Some p, Some n, Some r, Some s, Some c, Some u, Some l, Some t, Some m =>
          Returns {| ProjectState.project_id := p;
                     ProjectState.name := n;
                     ProjectState.requirements := r;
                     ProjectState.status := s;
                     ProjectState.created_at := c;
                     ProjectState.updated_at := u;
                     ProjectState.milestones := ms;
                     ProjectState.learning_points := l;
                     ProjectState.team_feedback := t;
                     ProjectState.current_milestone_id := m |}
      | _, _, _, _, _, _, _, _, _ =>
          Raises (Exn TypeError (missing_arguments "ProjectState" ProjectState.fields kw))
      end
  end.

(** [ProjectState.from_dict]: nothing turns a status tag back into a member
    of [ProjectStatus]; the fields receive the loaded values as they are. *)
Definition from_dict (data : pyval) : outcome ProjectState.t :=
  match data with
  | VDict kw =>
      match dict_get "milestones" kw with
      | None => Raises (Exn KeyError (repr_key "milestones"))
      | Some v =>
          match iterate v with
          | Raises e => Raises e
          | Returns items =>
              match comprehension Milestone_splat items with
              | Raises e => Raises e
              | Returns ms => ProjectState_init kw ms
              end
          end
      end
  | VStr _ => Raises (Exn TypeError "string indices must be integers, not 'str'")
  | VList _ => Raises (Exn TypeError "list indices must be integers or slices, not str")
  | _ => Raises (Exn TypeError (quoted (type_name data) +:+ " object is not subscriptable"))
  end.

(** ** Paths *)

(** The components of a path between its separators. *)
Fixpoint components (s cur : string) : list string :=
  match s with
  | EmptyString => [cur]
  | String c r =>
      if Ascii.eqb c "/"%char then cur :: components r ""
      else components r (cur +:+ String c "")
  end.

Module Path.
(** A [pathlib.Path] on POSIX: its root and the parts that follow. *)
Record t := { root : string; parts : list string }.
End Path.

(** The root of a path: none, [/], or [//] when the text starts with exactly
    two separators. *)
Definition path_root (s : string) : string :=
  match s with
  | String "/" (String "/" (String "/" _)) => "/"
  | String "/" (String "/" _) => "//"
  | String "/" _ => "/"
  | _ => ""
  end.

(** [Path(s)]: empty components and [.] are dropped, [..] is kept. *)
Definition Path_new (s : string) : Path.t :=
  {| Path.root := path_root s;
     Path.parts :=
       List.filter (fun x => negb (String.eqb x "") && negb (String.eqb x "."))
         (components s "") |}.

(** [p / s]: a segment that has a root replaces the path. *)
Definition truediv (p : Path.t) (s : string) : Path.t :=
  if String.eqb (path_root s) "" then
    {| Path.root := Path.root p; Path.parts := Path.parts p ++ Path.parts (Path_new s) |}
  else Path_new s.

(** [str(p)], the text handed to [open]. *)
Definition path_str (p : Path.t) : string :=
  match Path.root p, Path.parts p with
  | EmptyString, [] => "."
  | r, ps => r +:+ String.concat "/" ps
  end.

(** [class ProjectStateManager]: [__init__] has created the directory
    [project_dir] when it returns. *)
Record ProjectStateManager := { project_dir : string }.

(** [project_dir / f"{project_id}.json"], as [pathlib] spells it.  Two
    identifiers name one file here when [pathlib] gives them one text; what
    the operating system makes of [..] and of links is not modelled. *)
Definition state_path (self : ProjectStateManager) (project_id : string) : string :=
  path_str (truediv (Path_new (project_dir self)) (project_id +:+ ".json")).

Module AgentMemory.
(** [class AgentMemory]: the file of the memory and the four entries of
    [self.memory], at the schema [load_memory] creates.  Of its methods,
    [update_context] and [set_next_steps] are called nowhere in the program
    and are left out. *)
Record t := {
  memory_file : string;
  decisions : list pyval;
  learnings : list pyval;
  context : dict;
  next_steps : list pyval
}.
End AgentMemory.

(** [Path(f"agent_memories/{project_id}/{agent_id}.json")]; [__init__]
    creates its directory with [mkdir(parents=True)]. *)
Definition memory_path (agent_id project_id : string) : string :=
  path_str (Path_new ("agent_memories/" +:+ project_id +:+ "/" +:+ agent_id +:+ ".json")).

(** The memory [__init__] builds when no file exists yet. *)
Definition AgentMemory_new (agent_id project_id : string) : AgentMemory.t :=
  {| AgentMemory.memory_file := memory_path agent_id project_id;
     AgentMemory.decisions := [];
     AgentMemory.learnings := [];
     AgentMemory.context := [];
     AgentMemory.next_steps := [] |}.

(** [self.memory], the dict that [save_memory] dumps. *)
Definition memory_dict (self : AgentMemory.t) : pyval :=
  VDict [("decisions", VList (AgentMemory.decisions self));
         ("learnings", VList (AgentMemory.learnings self));
         ("context", VDict (AgentMemory.context self));
         ("next_steps", VList (AgentMemory.next_steps self))].

Module SoftwareTeamAgent.
(** [class SoftwareTeamAgent]; [self.llm] is the service of the section
    below, [self.system_prompts] the constant [system_prompts]. *)
Record t := {
  role : string;
  project_id : string;
  memory : AgentMemory.t
}.
End SoftwareTeamAgent.

(** [self.system_prompts] *)
Definition system_prompts : list (string * string) :=
  [("CEO", "You are the CEO of a software company. Your role is to:
                     - Understand and maintain project vision and business goals
                     - Track project progress and alignment with objectives
                     - Document key decisions and rationale
                     - Ensure continuous value delivery");
   ("CTO", "You are the CTO of a software company. Your role is to:
                     - Maintain technical vision and architecture
                     - Track technical debt and architectural decisions
                     - Document technical learnings and improvements
                     - Ensure technical excellence and innovation");
   ("Tester", "You are the Quality Assurance Lead. Your role is to:
                        - Maintain test strategies and quality metrics
                        - Track test coverage and technical debt
                        - Document testing insights and improvements
                        - Ensure consistent quality standards");
   ("Coder", "You are the Senior Software Engineer. Your role is to:
                       - Maintain code quality and implementation standards
                       - Track technical challenges and solutions
                       - Document code decisions and improvements
                       - Ensure maintainable and efficient code")].

(** [SoftwareTeamAgent(role, llm, project_id)] when no memory file exists. *)
Definition SoftwareTeamAgent_new (role project_id : string) : SoftwareTeamAgent.t :=
  {| SoftwareTeamAgent.role := role;
     SoftwareTeamAgent.project_id := project_id;
     SoftwareTeamAgent.memory := AgentMemory_new role project_id |}.

Module SoftwareTeam.
(** [class SoftwareTeam]: [self.agents] in insertion order. *)
Record t := {
  project_id : string;
  state_manager : ProjectStateManager;
  agents : list (string * SoftwareTeamAgent.t);
  state : option ProjectState.t
}.
End SoftwareTeam.

(** [SoftwareTeam(project_id)] on a file system that has no file of the
    project yet, past the check of the credential. *)
Definition SoftwareTeam_new (project_id : string) : SoftwareTeam.t :=
  {| SoftwareTeam.project_id := project_id;
     SoftwareTeam.state_manager := {| project_dir := "project_states" |};
     SoftwareTeam.agents :=
       [("CEO", SoftwareTeamAgent_new "CEO" project_id);
        ("CTO", SoftwareTeamAgent_new "CTO" project_id);
        ("Tester", SoftwareTeamAgent_new "Tester" project_id);
        ("Coder", SoftwareTeamAgent_new "Coder" project_id)];
     SoftwareTeam.state := None |}.

(** ** Doubles for the scenarios *)

(** A clock that reads T0, T1, ... *)
Definition tick_isoformat (n : nat) : string := "T" +:+ pretty n.

(** A generation service that always answers "ok". *)
Definition always_ok : list Request -> Request -> outcome string :=
  fun _ _ => Returns "ok".

(** A generation service that fails for the Tester and answers "ok" to the
    other roles. *)
Definition tester_fails : list Request -> Request -> outcome string :=
  fun _ rq =>
    if decide (alist_get "Tester" system_prompts = Some (rq_system rq))
    then Raises (Exn ServiceError "service unavailable")
    else Returns "ok".

Definition str_other_none : pyval -> string := fun _ => "None".

Definition empty_world : World := {| fs := ∅; clock := 0; requests := [] |}.

Definition default_manager : ProjectStateManager := {| project_dir := "project_states" |}.

(** A valid project state: one completed milestone. *)
Definition example_state : ProjectState.t :=
  {| ProjectState.project_id := VStr "p";
     ProjectState.name := VStr "X";
     ProjectState.requirements := VStr "reqs";
     ProjectState.status := VEnum IN_PROGRESS;
     ProjectState.created_at := VStr "T0";
     ProjectState.updated_at := VStr "T0";
     ProjectState.milestones :=
       [ {| Milestone.id := VStr "milestone_1";
            Milestone.description := VStr "Add login";
            Milestone.status := VEnum COMPLETED;
            Milestone.assigned_to := VStr "CTO";
            Milestone.created_at := VStr "T1";
            Milestone.completed_at := VStr "T2";
            Milestone.feedback := VList [] |} ];
     ProjectState.learning_points := VList [];
     ProjectState.team_feedback :=
       VDict [("CEO", VList []); ("CTO", VList []);
              ("Tester", VList []); ("Coder", VList [])];
     ProjectState.current_milestone_id := VStr "milestone_1" |}.

(** The document of that state with the statuses as their string tags, as
    a hand would write it. *)
Definition example_document : json :=
  JObj [("project_id", JStr "p");
        ("name", JStr "X");
        ("requirements", JStr "reqs");
        ("status", JStr (value IN_PROGRESS));
        ("created_at", JStr "T0");
        ("updated_at", JStr "T0");
        ("milestones",
         JList [JObj [("id", JStr "milestone_1");
                      ("description", JStr "Add login");
                      ("status", JStr (value COMPLETED));
                      ("assigned_to", JStr "CTO");
                      ("created_at", JStr "T1");
                      ("completed_at", JStr "T2");
                      ("feedback", JList [])]]);
        ("learning_points", JList []);
        ("team_feedback",
         JObj [("CEO", JList []); ("CTO", JList []);
               ("Tester", JList []); ("Coder", JList [])]);
        ("current_milestone_id", JStr "milestone_1")].

Definition world_with_document : World :=
  {| fs := {[ "project_states/p.json" := JsonText example_document ]};
     clock := 0;
     requests := [] |}.

Section Program.

(** [datetime.datetime.now().isoformat()] at each reading of the clock. *)
Variable isoformat : nat -> string.
(** The generation service: [llm.generate([messages])] followed by
    [.generations[0][0].text], given the requests served so far. *)
Variable llm_generate : list Request -> Request -> outcome string.
(** [str(v)] of a value that is not a string, as an f-string renders it. *)
Variable str_other : pyval -> string.

Definition py_str (v : pyval) : string :=
  match v with
  | VStr s => s
  | _ => str_other v
  end.

Definition now : M World string := fun w =>
  ({| fs := fs w; clock := S (clock w); requests := requests w |},
   Returns (isoformat (clock w))).

Definition not_serializable : exn :=
  Exn TypeError "Object of type ProjectStatus is not JSON serializable".

(** [with open(path, 'w') as f: json.dump(v, f, indent=2)], for a path that
    [open] accepts: the directory exists, as the constructors leave
    [project_dir] and the directory of a memory file, and the name is one
    the operating system takes.  An [open] that raises, as for an identifier
    that names a directory nobody created, is not modelled: the properties
    that depend on it are stated for identifiers that name a file (see
    [names_a_file]). *)
Definition dump_file (path : string) (v : pyval) : M World unit := fun w =>
  match to_json v with
  | Some j => (set_fs <[path := JsonText j]> w, Returns tt)
  | None => (set_fs <[path := NotJson]> w, Raises not_serializable)
  end.

(** [path.exists()] *)
Definition file_exists (path : string) : M World bool := fun w =>
  (w, Returns (bool_decide (is_Some (fs w !! path)))).

(** [with open(path, 'r') as f: json.load(f)].  Of the [JSONDecodeError]
    the exception keeps the message of [json]; the line, column and offset
    that [str(e)] appends to it depend on the text and are left out. *)
Definition load_file (path : string) : M World pyval := fun w =>
  match fs w !! path with
  | Some (JsonText j) => (w, Returns (of_json j))
  | Some NotJson => (w, Raises (Exn JSONDecodeError "Expecting value"))
  | None =>
      (w, Raises (Exn FileNotFoundError
                    ("[Errno 2] No such file or directory: " +:+ repr_key path)))
  end.

(** [json.dumps(v, indent=2)] *)
Definition dumps {S} (v : pyval) : M S json :=
  match to_json v with
  | Some j => ret j
  | None => raise not_serializable
  end.

(** ** State store *)

(** [ProjectStateManager.save_state] *)
Definition save_state (self : ProjectStateManager) (state : ProjectState.t) : M World unit :=
  let file_path := state_path self (py_str (ProjectState.project_id state)) in
  dump_file file_path (to_dict state).

(** [ProjectStateManager.load_state] *)
Definition load_state (self : ProjectStateManager) (project_id : string)
    : M World (option ProjectState.t) :=
  let file_path := state_path self project_id in
  let* found := file_exists file_path in
  if found : bool then
    let* data := load_file file_path in
    let* state := lift (from_dict data) in
    ret (Some state)
  else ret None.

(** ** Role memory *)

Definition Mem (A : Type) : Type := M (World * AgentMemory.t) A.

(** [AgentMemory.save_memory] *)
Definition save_memory : Mem unit :=
  let* self := get_obj in
  in_world (dump_file (AgentMemory.memory_file self) (memory_dict self)).

(** Assignments to the entries of [self.memory]. *)
Definition with_decisions (ds : list pyval) (self : AgentMemory.t) : AgentMemory.t :=
  {| AgentMemory.memory_file := AgentMemory.memory_file self;
     AgentMemory.decisions := ds;
     AgentMemory.learnings := AgentMemory.learnings self;
     AgentMemory.context := AgentMemory.context self;
     AgentMemory.next_steps := AgentMemory.next_steps self |}.

Definition with_learnings (ls : list pyval) (self : AgentMemory.t) : AgentMemory.t :=
  {| AgentMemory.memory_file := AgentMemory.memory_file self;
     AgentMemory.decisions := AgentMemory.decisions self;
     AgentMemory.learnings := ls;
     AgentMemory.context := AgentMemory.context self;
     AgentMemory.next_steps := AgentMemory.next_steps self |}.

(** The entries that [add_decision] and [add_learning] append. *)
Definition decision_entry (timestamp decision : string) (context : dict) : pyval :=
  VDict [("timestamp", VStr timestamp);
         ("decision", VStr decision);
         ("context", VDict context)].

Definition learning_entry (timestamp learning : string) : pyval :=
  VDict [("timestamp", VStr timestamp);
         ("learning", VStr learning)].

(** [AgentMemory.add_decision] *)
Definition add_decision (decision : string) (context : dict) : Mem unit :=
  let* timestamp := in_world now in
  modify_obj (fun self =>
    with_decisions
      (AgentMemory.decisions self ++ [decision_entry timestamp decision context])
      self) >>
  save_memory.

(** [AgentMemory.add_learning] *)
Definition add_learning (learning : string) : Mem unit :=
  let* timestamp := in_world now in
  modify_obj (fun self =>
    with_learnings
      (AgentMemory.learnings self ++ [learning_entry timestamp learning])
      self) >>
  save_memory.

(** The dict that [get_memory_summary] builds. *)
Definition memory_summary (self : AgentMemory.t) : pyval :=
  VDict [("recent_decisions", VList (last5 (AgentMemory.decisions self)));
         ("key_learnings", VList (last5 (AgentMemory.learnings self)));
         ("current_context", VDict (AgentMemory.context self));
         ("pending_steps", VList (AgentMemory.next_steps self))].

(** [AgentMemory.get_memory_summary] *)
Definition get_memory_summary : Mem pyval :=
  let* self := get_obj in
  ret (memory_summary self).

(** The dict [load_memory] creates when the file does not exist. *)
Definition default_memory : pyval :=
  VDict [("decisions", VList []);
         ("learnings", VList []);
         ("context", VDict []);
         ("next_steps", VList [])].

(** [AgentMemory.load_memory]: the object it assigns to [self.memory]. *)
Definition load_memory (memory_file : string) : M World pyval :=
  let* found := file_exists memory_file in
  if found : bool then load_file memory_file else ret default_memory.

(** ** Role agent *)

Definition Agent (A : Type) : Type := M (World * SoftwareTeamAgent.t) A.

Definition with_memory (m : AgentMemory.t) (self : SoftwareTeamAgent.t)
    : SoftwareTeamAgent.t :=
  {| SoftwareTeamAgent.role := SoftwareTeamAgent.role self;
     SoftwareTeamAgent.project_id := SoftwareTeamAgent.project_id self;
     SoftwareTeamAgent.memory := m |}.

(** A method of [self.memory], called from a method of the agent. *)
Definition on_memory {A} (m : Mem A) : Agent A :=
  zoom (fun s => (s.1, SoftwareTeamAgent.memory s.2))
       (fun t s => (t.1, with_memory t.2 s.2))
       m.

(** [self.llm.generate([messages])] and [response.generations[0][0].text]:
    one request, logged whether it is served or fails. *)
Definition generate (rq : Request) : M World string := fun w =>
  ({| fs := fs w; clock := clock w; requests := requests w ++ [rq] |},
   llm_generate (requests w) rq).

(** [SoftwareTeamAgent._format_input]: the template is fixed, its two holes
    are [json.dumps(context, indent=2)] and the message. *)
Definition _format_input {S} (message : string) (context : dict) : M S HumanMessage :=
  let* formatted_context := dumps (VDict context) in
  ret {| hm_context := formatted_context; hm_task := message |}.

(** The [except] clause of [process_message]. *)
Definition wrap_failure (e : exn) : Agent string :=
  on_memory (add_learning ("Error encountered: " +:+ exn_str e)) >>
  let* self := get_obj in
  raise (Exn RuntimeError
    ("Error in " +:+ SoftwareTeamAgent.role self +:+ " agent: " +:+ exn_str e)).

(** [SoftwareTeamAgent.process_message] *)
Definition process_message (message : string) (context : option dict)
    (save_decision : bool) : Agent string :=
  try_except
    (let* memory_summary := on_memory get_memory_summary in
     let full_context :=
       dict_set "memory_summary" memory_summary (default [] context) in
     let* self := get_obj in
     let* system :=
       match alist_get (SoftwareTeamAgent.role self) system_prompts with
       | Some p => ret p
       | None => raise (Exn KeyError (repr_key (SoftwareTeamAgent.role self)))
       end in
     let* human := _format_input message full_context in
     let* response_text :=
       in_world (generate {| rq_system := system; rq_human := human |}) in
     (if save_decision
      then on_memory (add_decision response_text full_context)
      else ret tt) >>
     ret response_text)
    wrap_failure.

(** A caller that invokes one agent again and again, going on after an
    exception: the arguments of each invocation, and what the invocations
    leave behind. *)
Record invocation := {
  inv_message : string;
  inv_context : option dict;
  inv_save_decision : bool
}.

Definition after_invocations (calls : list invocation) (s : World * SoftwareTeamAgent.t)
    : World * SoftwareTeamAgent.t :=
  foldl (fun s c =>
           (process_message (inv_message c) (inv_context c) (inv_save_decision c) s).1)
        s calls.

(** ** Orchestrator *)

Definition Team (A : Type) : Type := M (World * SoftwareTeam.t) A.

Definition set_state (st : option ProjectState.t) (self : SoftwareTeam.t) : SoftwareTeam.t :=
  {| SoftwareTeam.project_id := SoftwareTeam.project_id self;
     SoftwareTeam.state_manager := SoftwareTeam.state_manager self;
     SoftwareTeam.agents := SoftwareTeam.agents self;
     SoftwareTeam.state := st |}.

Definition set_agents (ags : list (string * SoftwareTeamAgent.t)) (self : SoftwareTeam.t)
    : SoftwareTeam.t :=
  {| SoftwareTeam.project_id := SoftwareTeam.project_id self;
     SoftwareTeam.state_manager := SoftwareTeam.state_manager self;
     SoftwareTeam.agents := ags;
     SoftwareTeam.state := SoftwareTeam.state self |}.

(** A method of [self.agents[role]], called from a method of the team: the
    agent is an object of the team, mutated in place.  The roles the loops
    pass are the keys of [self.agents]. *)
Definition on_agent {A} (role : string) (m : Agent A) : Team A := fun s =>
  match alist_get role (SoftwareTeam.agents s.2) with
  | None => (s, Raises (Exn KeyError (repr_key role)))
  | Some agent =>
      let '((w, agent'), r) := m (s.1, agent) in
      ((w, set_agents (alist_set role agent' (SoftwareTeam.agents s.2)) s.2), r)
  end.

(** [self.state] where an attribute of it is read: on [None] that is an
    [AttributeError]. *)
Definition the_state : Team ProjectState.t :=
  let* self := get_obj in
  match SoftwareTeam.state self with
  | Some st => ret st
  | None => raise (Exn AttributeError "'NoneType' object has no attribute")
  end.

(** [self.state_manager.save_state(self.state)] *)
Definition checkpoint : Team unit :=
  let* self := get_obj in
  let* st := the_state in
  in_world (save_state (SoftwareTeam.state_manager self) st).

(** [SoftwareTeam.start_new_project] *)
Definition start_new_project (name requirements : string) : Team unit :=
  let* timestamp := in_world now in
  let* self := get_obj in
  modify_obj (set_state (Some
    {| ProjectState.project_id := VStr (SoftwareTeam.project_id self);
       ProjectState.name := VStr name;
       ProjectState.requirements := VStr requirements;
       ProjectState.status := VEnum NOT_STARTED;
       ProjectState.created_at := VStr timestamp;
       ProjectState.updated_at := VStr timestamp;
       ProjectState.milestones := [];
       ProjectState.learning_points := VList [];
       ProjectState.team_feedback :=
         VDict ((fun agent => (agent, VList [])) <$> (SoftwareTeam.agents self).*1);
       ProjectState.current_milestone_id := VNone |})) >>
  checkpoint.

(** The loop of [resume_project] over [self.agents.values()]. *)
Fixpoint resume_loop (roles : list string) : Team unit :=
  match roles with
  | [] => ret tt
  | role :: rest =>
      let* st := the_state in
      on_agent role
        (process_message "Review project state and provide next steps."
           (Some [("project_state", to_dict st)]) true) >>
      resume_loop rest
  end.

(** [SoftwareTeam.resume_project] *)
Definition resume_project : Team unit :=
  let* self := get_obj in
  match SoftwareTeam.state self with
  | None => raise (Exn ValueError "No project state found. Please start a new project.")
  | Some _ => resume_loop (SoftwareTeam.agents self).*1
  end.

(** The local [milestone] of [process_milestone] is the object appended to
    [self.state.milestones] at index [idx]: reads and writes go there.  The
    list only grows, so the index stays in range. *)
Definition the_milestone (idx : nat) : Team Milestone.t :=
  let* st := the_state in
  match ProjectState.milestones st !! idx with
  | Some m => ret m
  | None => raise (Exn AttributeError "no such milestone")
  end.

Definition set_milestones (f : list Milestone.t -> list Milestone.t)
    (st : ProjectState.t) : ProjectState.t :=
  {| ProjectState.project_id := ProjectState.project_id st;
     ProjectState.name := ProjectState.name st;
     ProjectState.requirements := ProjectState.requirements st;
     ProjectState.status := ProjectState.status st;
     ProjectState.created_at := ProjectState.created_at st;
     ProjectState.updated_at := ProjectState.updated_at st;
     ProjectState.milestones := f (ProjectState.milestones st);
     ProjectState.learning_points := ProjectState.learning_points st;
     ProjectState.team_feedback := ProjectState.team_feedback st;
     ProjectState.current_milestone_id := ProjectState.current_milestone_id st |}.

Definition set_current_milestone_id (v : pyval) (st : ProjectState.t) : ProjectState.t :=
  {| ProjectState.project_id := ProjectState.project_id st;
     ProjectState.name := ProjectState.name st;
     ProjectState.requirements := ProjectState.requirements st;
     ProjectState.status := ProjectState.status st;
     ProjectState.created_at := ProjectState.created_at st;
     ProjectState.updated_at := ProjectState.updated_at st;
     ProjectState.milestones := ProjectState.milestones st;
     ProjectState.learning_points := ProjectState.learning_points st;
     ProjectState.team_feedback := ProjectState.team_feedback st;
     ProjectState.current_milestone_id := v |}.

Definition modify_state (f : ProjectState.t -> ProjectState.t) : Team unit :=
  modify_obj (fun self => set_state (f <$> SoftwareTeam.state self) self).

(** An assignment to an attribute of [milestone]. *)
Definition modify_milestone (idx : nat) (f : Milestone.t -> Milestone.t) : Team unit :=
  modify_state (set_milestones (alter f idx)).

Definition set_status (v : pyval) (m : Milestone.t) : Milestone.t :=
  {| Milestone.id := Milestone.id m;
     Milestone.description := Milestone.description m;
     Milestone.status := v;
     Milestone.assigned_to := Milestone.assigned_to m;
     Milestone.created_at := Milestone.created_at m;
     Milestone.completed_at := Milestone.completed_at m;
     Milestone.feedback := Milestone.feedback m |}.

Definition set_completed_at (v : pyval) (m : Milestone.t) : Milestone.t :=
  {| Milestone.id := Milestone.id m;
     Milestone.description := Milestone.description m;
     Milestone.status := Milestone.status m;
     Milestone.assigned_to := Milestone.assigned_to m;
     Milestone.created_at := Milestone.created_at m;
     Milestone.completed_at := v;
     Milestone.feedback := Milestone.feedback m |}.

Definition set_feedback (v : pyval) (m : Milestone.t) : Milestone.t :=
  {| Milestone.id := Milestone.id m;
     Milestone.description := Milestone.description m;
     Milestone.status := Milestone.status m;
     Milestone.assigned_to := Milestone.assigned_to m;
     Milestone.created_at := Milestone.created_at m;
     Milestone.completed_at := Milestone.completed_at m;
     Milestone.feedback := v |}.

(** [milestone.feedback.append(entry)] *)
Definition feedback_append (idx : nat) (entry : pyval) : Team unit :=
  let* milestone := the_milestone idx in
  match Milestone.feedback milestone with
  | VList l => modify_milestone idx (set_feedback (VList (l ++ [entry])))
  | _ => raise (Exn AttributeError "object has no attribute 'append'")
  end.

(** The loop of [process_milestone] over [self.agents.items()], from the
    roles still to run and the [results] gathered so far.  In Python the
    dict [results] is one object, also reachable from the context an agent
    stored with its decision; the assignment that would change it is never
    reached from [process_milestone] ([milestone_role_call_raises] below), so
    the sharing is not modelled. *)
Fixpoint milestone_loop (idx : nat) (milestone_description : string)
    (roles : list string) (results : dict) : Team dict :=
  match roles with
  | [] => ret results
  | role :: rest =>
      let* st := the_state in
      let* milestone := the_milestone idx in
      let context :=
        [("project_state", to_dict st);
         ("current_milestone", asdict milestone);
         ("previous_results", VDict results)] in
      let* result :=
        on_agent role
          (process_message ("Process milestone: " +:+ milestone_description)
             (Some context) true) in
      let results := dict_set role (VStr result) results in
      let* timestamp := in_world now in
      feedback_append idx
        (VDict [("role", VStr role);
                ("feedback", VStr result);
                ("timestamp", VStr timestamp)]) >>
      milestone_loop idx milestone_description rest results
  end.

(** The [try] statement of [process_milestone]. *)
Definition milestone_try (idx : nat) (milestone_description : string)
    (roles : list string) : Team dict :=
  try_except
    (let* results := milestone_loop idx milestone_description roles [] in
     modify_milestone idx (set_status (VEnum COMPLETED)) >>
     let* completed := in_world now in
     modify_milestone idx (set_completed_at (VStr completed)) >>
     checkpoint >>
     ret results)
    (fun e =>
       modify_milestone idx (set_status (VEnum ON_HOLD)) >>
       checkpoint >>
       raise e).

(** The milestone that [process_milestone] creates. *)
Definition new_milestone (milestone_id milestone_description created : string) : Milestone.t :=
  {| Milestone.id := VStr milestone_id;
     Milestone.description := VStr milestone_description;
     Milestone.status := VEnum IN_PROGRESS;
     Milestone.assigned_to := VStr "CTO";
     Milestone.created_at := VStr created;
     Milestone.completed_at := VNone;
     Milestone.feedback := VList [] |}.

(** [SoftwareTeam.process_milestone] *)
Definition process_milestone (milestone_description : string) : Team dict :=
  let* self := get_obj in
  match SoftwareTeam.state self with
  | None => raise (Exn ValueError "No project state found")
  | Some st =>
      let idx := length (ProjectState.milestones st) in
      let milestone_id := "milestone_" +:+ pretty (idx + 1) in
      let* created := in_world now in
      let milestone := new_milestone milestone_id milestone_description created in
      modify_state (set_milestones (fun ms => ms ++ [milestone])) >>
      modify_state (set_current_milestone_id (VStr milestone_id)) >>
      checkpoint >>
      milestone_try idx milestone_description (SoftwareTeam.agents self).*1
  end.

(** ** Driver *)


(** The requirements of the example project, as the literal of [main] spells
    them. *)
Definition requirements : string := "
            Create a web application that allows users to:
            1. Upload and analyze CSV files
            2. Generate interactive visualizations
            3. Export reports in PDF format
            ".


(** A caller that goes on after an exception: what a call leaves behind. *)
Inductive later_call :=
  | ResumeProject
  | ProcessMilestone (milestone_description : string).

Inductive call :=
  | StartNewProject (name requirements : string)
  | Later (c : later_call).

Definition after_later (c : later_call) (s : World * SoftwareTeam.t) : World * SoftwareTeam.t :=
  match c with
  | ResumeProject => (resume_project s).1
  | ProcessMilestone d => (process_milestone d s).1
  end.

Definition after_call (c : call) (s : World * SoftwareTeam.t) : World * SoftwareTeam.t :=
  match c with
  | StartNewProject name requirements => (start_new_project name requirements s).1
  | Later c => after_later c s
  end.

Definition after_laters (cs : list later_call) (s : World * SoftwareTeam.t)
    : World * SoftwareTeam.t :=
  foldl (fun s c => after_later c s) s cs.

Definition after_calls (cs : list call) (s : World * SoftwareTeam.t) : World * SoftwareTeam.t :=
  foldl (fun s c => after_call c s) s cs.

(** The team of project "p" once [start_new_project("X", "reqs")] has run
    on an empty file system. *)
Definition started : World * SoftwareTeam.t :=
  (start_new_project "X" "reqs" (empty_world, SoftwareTeam_new "p")).1.

(** * Vocabulary of the properties *)

(** The value of a field in a loaded dict, [None] when the key is absent. *)
Definition field (k : string) (kw : dict) : pyval := default VNone (dict_get k kw).

(** [kw] has the keys [required] and no key outside [allowed]. *)
Definition has_keys (required allowed : list string) (kw : dict) : bool :=
  forallb (fun k => bool_decide (k ∈ allowed)) (dict_keys kw) &&
  forallb (fun k => bool_decide (is_Some (dict_get k kw))) required.

(** An object of the list of milestones of a project document. *)
Definition is_milestone_document (v : pyval) : bool :=
  match v with
  | VDict kw =>
      has_keys ["id"; "description"; "status"; "assigned_to"; "created_at"]
        Milestone.fields kw
  | _ => false
  end.

(** A project document: the ten fields of [ProjectState] and no other, the
    milestones a list of milestone objects. *)
Definition is_state_document (v : pyval) : bool :=
  match v with
  | VDict kw =>
      has_keys ProjectState.fields ProjectState.fields kw &&
      match dict_get "milestones" kw with
      | Some (VList items) => forallb is_milestone_document items
      | _ => false
      end
  | _ => false
  end.

(** The keywords of a loaded object. *)
Definition as_dict (v : pyval) : dict :=
  match v with
  | VDict kw => kw
  | _ => []
  end.

(** The [Milestone] that a milestone object describes. *)
Definition milestone_of (v : pyval) : Milestone.t :=
  let kw := as_dict v in
  {| Milestone.id := field "id" kw;
     Milestone.description := field "description" kw;
     Milestone.status := field "status" kw;
     Milestone.assigned_to := field "assigned_to" kw;
     Milestone.created_at := field "created_at" kw;
     Milestone.completed_at := field "completed_at" kw;
     Milestone.feedback :=
       match field "feedback" kw with
       | VNone => VList []
       | f => f
       end |}.

(** The [ProjectState] that a project document describes. *)
Definition state_of (v : pyval) : ProjectState.t :=
  let kw := as_dict v in
  {| ProjectState.project_id := field "project_id" kw;
     ProjectState.name := field "name" kw;
     ProjectState.requirements := field "requirements" kw;
     ProjectState.status := field "status" kw;
     ProjectState.created_at := field "created_at" kw;
     ProjectState.updated_at := field "updated_at" kw;
     ProjectState.milestones :=
       match field "milestones" kw with
       | VList items => milestone_of <$> items
       | _ => []
       end;
     ProjectState.learning_points := field "learning_points" kw;
     ProjectState.team_feedback := field "team_feedback" kw;
     ProjectState.current_milestone_id := field "current_milestone_id" kw |}.

(** The world after a memory has been dumped at one reading of the clock. *)
Definition memory_saved (doc : json) (path : string) (w : World) : World :=
  {| fs := <[path := JsonText doc]> (fs w);
     clock := S (clock w);
     requests := requests w |}.

(** The request an invocation sends. *)
Definition request_of (system : string) (formatted_context : json) (message : string)
    : Request :=
  {| rq_system := system;
     rq_human := {| hm_context := formatted_context; hm_task := message |} |}.

(** The world once a request has been sent. *)
Definition request_sent (rq : Request) (w : World) : World :=
  {| fs := fs w; clock := clock w; requests := requests w ++ [rq] |}.

(** The identifiers of the milestones of a project, in the order of the list. *)
Definition milestone_ids (o : option ProjectState.t) : list pyval :=
  match o with
  | Some st => Milestone.id <$> ProjectState.milestones st
  | None => []
  end.

(** The identifier at the 1-based position [n]. *)
Definition nth_milestone_id (n : nat) : pyval := VStr ("milestone_" +:+ pretty n).

(** [keeps view m]: the computation [m] of the team leaves [view] of the
    project state as it found it, whether it returns or raises. *)
Definition keeps {X A} (view : option ProjectState.t -> X) (m : Team A) : Prop :=
  forall s, view (SoftwareTeam.state (m s).1.2) = view (SoftwareTeam.state s.2).

(** The state [start_new_project] builds. *)
Definition new_project_state (project_id name requirements timestamp : string)
    (roles : list string) : ProjectState.t :=
  {| ProjectState.project_id := VStr project_id;
     ProjectState.name := VStr name;
     ProjectState.requirements := VStr requirements;
     ProjectState.status := VEnum NOT_STARTED;
     ProjectState.created_at := VStr timestamp;
     ProjectState.updated_at := VStr timestamp;
     ProjectState.milestones := [];
     ProjectState.learning_points := VList [];
     ProjectState.team_feedback := VDict ((fun agent => (agent, VList [])) <$> roles);
     ProjectState.current_milestone_id := VNone |}.


(** An agent after an invocation that returned and recorded its decision. *)
Definition reviewed (a a' : SoftwareTeamAgent.t) : Prop :=
  exists timestamp text context,
    a' = with_memory
           (with_decisions
              (AgentMemory.decisions (SoftwareTeamAgent.memory a) ++
               [decision_entry timestamp text context])
              (SoftwareTeamAgent.memory a)) a.

(** An agent after an invocation that raised [e]: one learning more, and
    [e] the wrapped failure that names its role. *)
Definition failed (a a' : SoftwareTeamAgent.t) (e : exn) : Prop :=
  exists timestamp cause,
    a' = with_memory
           (with_learnings
              (AgentMemory.learnings (SoftwareTeamAgent.memory a) ++
               [learning_entry timestamp ("Error encountered: " +:+ cause)])
              (SoftwareTeamAgent.memory a)) a /\
    e = Exn RuntimeError
          ("Error in " +:+ SoftwareTeamAgent.role a +:+ " agent: " +:+ cause).


(** A value all of whose dicts have pairwise distinct keys, as every dict
    of Python has. *)
Fixpoint keys_unique (v : pyval) : bool :=
  match v with
  | VList l => forallb keys_unique l
  | VDict d => bool_decide (NoDup d.*1) && forallb (fun kv => keys_unique kv.2) d
  | _ => true
  end.


(** The file of a memory holds the memory: a [load_memory] of it returns
    the dict the memory is. *)
Definition in_sync (w : World) (m : AgentMemory.t) : Prop :=
  load_memory (AgentMemory.memory_file m) w = (w, Returns (memory_dict m)).


(** The number of objects of a value: what [json.dump] has to write for it,
    and what a prompt that renders it carries. *)
Fixpoint nodes (v : pyval) : nat :=
  match v with
  | VList l => S (sum_list_with nodes l)
  | VDict d => S (sum_list_with (fun kv => nodes kv.2) d)
  | _ => 1
  end.


(** The bytes of a string in UTF-8, a character being a code point below
    256. *)
Definition utf8_length (s : string) : nat :=
  sum_list_with (fun c => if Nat.ltb (nat_of_ascii c) 128 then 1 else 2)
    (String.list_ascii_of_string s).

(** An identifier that names a file of the directory of its store:
    [f"{project_id}.json"] is one component of a path, and one that [open]
    and [exists] take; it holds no separator and no NUL, and has at most
    255 bytes.  With any other identifier the path leaves the directory that
    the constructor created, or the operating system refuses the name. *)
Definition names_a_file (project_id : string) : bool :=
  forallb (fun c => negb (Ascii.eqb c "/"%char) && negb (Ascii.eqb c "000"%char))
    (String.list_ascii_of_string project_id) &&
  Nat.leb (utf8_length project_id + 5) 255.

(** The number of milestones of the project after a sequence of calls:
    [start_new_project] leaves a project without milestones,
    [process_milestone] adds one to a project and nothing without one, and
    [resume_project] changes nothing. *)
Definition milestones_after_call (o : option nat) (c : call) : option nat :=
  match c with
  | StartNewProject _ _ => Some 0
  | Later ResumeProject => o
  | Later (ProcessMilestone _) => S <$> o
  end.

Definition milestones_after (cs : list call) : option nat :=
  foldl milestones_after_call None cs.

(** * Properties *)

(** ** What the encoder refuses *)

Lemma to_json_list_None (l : list pyval) :
  Exists (fun v => to_json v = None) l -> to_json (VList l) = None.
Proof.
  intros H. change (JList <$> mapM to_json l = None).
  by rewrite (mapM_None_2 _ _ H).
Qed.

Lemma to_json_dict_None (d : dict) :
  Exists (fun kv => to_json kv.2 = None) d -> to_json (VDict d) = None.
Proof.
  intros H.
  change (JObj <$> mapM (fun kv => pair kv.1 <$> to_json kv.2) d = None).
  rewrite mapM_None_2; [done|].
  eapply Exists_impl; [exact H|]. intros [k v]; simpl. by intros ->.
Qed.

Lemma asdict_enum_status (m : Milestone.t) (e : ProjectStatus) :
  Milestone.status m = VEnum e -> to_json (asdict m) = None.
Proof.
  intros H. apply to_json_dict_None. unfold asdict.
  do 2 apply Exists_cons_tl. apply Exists_cons_hd. simpl. by rewrite H.
Qed.

Lemma to_dict_enum_status (st : ProjectState.t) (e : ProjectStatus) :
  ProjectState.status st = VEnum e -> to_json (to_dict st) = None.
Proof.
  intros H. apply to_json_dict_None.
  do 3 apply Exists_cons_tl. apply Exists_cons_hd. simpl. by rewrite H.
Qed.

Lemma to_dict_enum_milestone (st : ProjectState.t) (m : Milestone.t) (e : ProjectStatus) :
  m ∈ ProjectState.milestones st -> Milestone.status m = VEnum e ->
  to_json (to_dict st) = None.
Proof.
  intros Hin H. apply to_json_dict_None.
  do 6 apply Exists_cons_tl. apply Exists_cons_hd. simpl.
  apply to_json_list_None, Exists_exists. exists (asdict m). split.
  - by apply list_elem_of_fmap_2.
  - by eapply asdict_enum_status.
Qed.

(** A [save_state] of a state the encoder refuses leaves text that is no
    document under the project's path, and raises. *)
Lemma save_state_refused (self : ProjectStateManager) (st : ProjectState.t) (w : World) :
  to_json (to_dict st) = None ->
  save_state self st w =
    (set_fs <[state_path self (py_str (ProjectState.project_id st)) := NotJson]> w,
     Raises not_serializable).
Proof. intros H. unfold save_state, dump_file. by rewrite H. Qed.

(** ** [save_state] followed by [load_state] *)

(** C1 (defect).  The specification: for every valid ProjectState, [save]
    then [load] with the same project identifier yields an equal state, the
    status enums written as their string tags.  The code: for every state
    whose status is a member of [ProjectStatus], which every valid state is,
    [save_state] raises [TypeError] and leaves under the project's path a
    text that is no JSON document, and the [load_state] that follows raises
    [JSONDecodeError] instead of returning the state. *)
Theorem save_then_load_raises (self : ProjectStateManager) (st : ProjectState.t)
    (e : ProjectStatus) (w : World) :
  ProjectState.status st = VEnum e ->
  let project_id := py_str (ProjectState.project_id st) in
  exists w',
    save_state self st w = (w', Raises not_serializable) /\
    fs w' !! state_path self project_id = Some NotJson /\
    load_state self project_id w' = (w', Raises (Exn JSONDecodeError "Expecting value")).
Proof.
  intros H project_id. eexists. split; [|split].
  - apply save_state_refused. by eapply to_dict_enum_status.
  - simpl. apply lookup_insert_eq.
  - unfold load_state, bind, file_exists, load_file. simpl.
    fold project_id. rewrite lookup_insert_eq.
    rewrite bool_decide_eq_true_2 by eauto. simpl.
    by rewrite lookup_insert_eq.
Qed.

(** ** The summary of a memory *)

Lemma last5_length {A} (l : list A) : length (last5 l) = 5 `min` length l.
Proof. unfold last5. rewrite length_drop. lia. Qed.

Lemma last5_suffix {A} (l : list A) : take (length l - 5) l ++ last5 l = l.
Proof. apply take_drop. Qed.

(** C5.  Whatever the memory holds, [get_memory_summary] returns the dict of
    the last five decisions (all of them when there are fewer), the last five
    learnings, the whole context and the whole list of next steps, in the
    order of the logs, and leaves world and memory as they were. *)
Theorem get_memory_summary_last_five (s : World * AgentMemory.t) :
  exists older_decisions recent_decisions older_learnings key_learnings,
    get_memory_summary s =
      (s, Returns (VDict [("recent_decisions", VList recent_decisions);
                          ("key_learnings", VList key_learnings);
                          ("current_context", VDict (AgentMemory.context s.2));
                          ("pending_steps", VList (AgentMemory.next_steps s.2))])) /\
    AgentMemory.decisions s.2 = older_decisions ++ recent_decisions /\
    AgentMemory.learnings s.2 = older_learnings ++ key_learnings /\
    length recent_decisions = 5 `min` length (AgentMemory.decisions s.2) /\
    length key_learnings = 5 `min` length (AgentMemory.learnings s.2) /\
    length recent_decisions <= 5 /\
    length key_learnings <= 5.
Proof.
  exists (take (length (AgentMemory.decisions s.2) - 5) (AgentMemory.decisions s.2)),
         (last5 (AgentMemory.decisions s.2)),
         (take (length (AgentMemory.learnings s.2) - 5) (AgentMemory.learnings s.2)),
         (last5 (AgentMemory.learnings s.2)).
  rewrite !last5_suffix, !last5_length.
  repeat split; lia.
Qed.

(** ** What the orchestrator leaves alone *)

Section Frame.
Context {X : Type} (view : option ProjectState.t -> X).

Lemma keeps_ret {A} (a : A) : keeps view (ret a).
Proof. by intros s. Qed.

Lemma keeps_raise {A} (e : exn) : keeps view (raise (A:=A) e).
Proof. by intros s. Qed.

Lemma keeps_get_obj : keeps view get_obj.
Proof. by intros s. Qed.

Lemma keeps_in_world {A} (m : M World A) : keeps view (in_world m).
Proof. intros [w t]. unfold in_world, zoom. simpl. by destruct (m w). Qed.

Lemma keeps_bind {A B} (m : Team A) (k : A -> Team B) :
  keeps view m -> (forall a, keeps view (k a)) -> keeps view (bind m k).
Proof.
  intros Hm Hk s. unfold bind. specialize (Hm s).
  destruct (m s) as [s' [a|e]]; simpl in *; [|done].
  by rewrite (Hk a s').
Qed.

Lemma keeps_try_except {A} (m : Team A) (h : exn -> Team A) :
  keeps view m -> (forall e, keeps view (h e)) -> keeps view (try_except m h).
Proof.
  intros Hm Hh s. unfold try_except. specialize (Hm s).
  destruct (m s) as [s' [a|e]]; simpl in *; [done|].
  by rewrite (Hh e s').
Qed.

Lemma keeps_on_agent {A} (role : string) (m : Agent A) : keeps view (on_agent role m).
Proof.
  intros [w t]. unfold on_agent. simpl.
  destruct (alist_get role (SoftwareTeam.agents t)); [|done].
  by destruct (m (w, t0)) as [[w' a'] r].
Qed.

Lemma keeps_modify_state (f : ProjectState.t -> ProjectState.t) :
  (forall o, view (f <$> o) = view o) -> keeps view (modify_state f).
Proof. intros Hf [w t]. simpl. apply Hf. Qed.

Lemma keeps_the_state : keeps view the_state.
Proof.
  apply keeps_bind; [apply keeps_get_obj|]. intros self.
  destruct (SoftwareTeam.state self); [apply keeps_ret|apply keeps_raise].
Qed.

Lemma keeps_checkpoint : keeps view checkpoint.
Proof.
  apply keeps_bind; [apply keeps_get_obj|]. intros self.
  apply keeps_bind; [apply keeps_the_state|]. intros st.
  apply keeps_in_world.
Qed.

Lemma keeps_the_milestone (idx : nat) : keeps view (the_milestone idx).
Proof.
  apply keeps_bind; [apply keeps_the_state|]. intros st.
  destruct (ProjectState.milestones st !! idx); [apply keeps_ret|apply keeps_raise].
Qed.

Lemma keeps_resume_loop (roles : list string) : keeps view (resume_loop roles).
Proof.
  induction roles as [|role rest IH]; [apply keeps_ret|].
  apply keeps_bind; [apply keeps_the_state|]. intros st.
  apply keeps_bind; [apply keeps_on_agent|]. intros _. exact IH.
Qed.

Lemma keeps_resume_project : keeps view resume_project.
Proof.
  apply keeps_bind; [apply keeps_get_obj|]. intros self.
  destruct (SoftwareTeam.state self); [apply keeps_resume_loop|apply keeps_raise].
Qed.

(** The view is blind to what an assignment to a milestone that keeps view its
    [id] changes, and to [current_milestone_id]. *)
Hypothesis view_alter : forall (f : Milestone.t -> Milestone.t) idx o,
  (forall m, Milestone.id (f m) = Milestone.id m) ->
  view (set_milestones (alter f idx) <$> o) = view o.
Hypothesis view_current : forall v o,
  view (set_current_milestone_id v <$> o) = view o.

Lemma keeps_modify_milestone (idx : nat) (f : Milestone.t -> Milestone.t) :
  (forall m, Milestone.id (f m) = Milestone.id m) ->
  keeps view (modify_milestone idx f).
Proof. intros Hf. apply keeps_modify_state. intros o. by apply view_alter. Qed.

Lemma keeps_feedback_append (idx : nat) (entry : pyval) :
  keeps view (feedback_append idx entry).
Proof.
  apply keeps_bind; [apply keeps_the_milestone|]. intros m.
  destruct (Milestone.feedback m);
    first [apply keeps_raise | by apply keeps_modify_milestone].
Qed.

Lemma keeps_milestone_loop idx description roles results :
  keeps view (milestone_loop idx description roles results).
Proof.
  revert results. induction roles as [|role rest IH]; intros results;
    [apply keeps_ret|].
  apply keeps_bind; [apply keeps_the_state|]. intros st.
  apply keeps_bind; [apply keeps_the_milestone|]. intros m.
  apply keeps_bind; [apply keeps_on_agent|]. intros result.
  apply keeps_bind; [apply keeps_in_world|]. intros timestamp.
  apply keeps_bind; [apply keeps_feedback_append|]. intros _. apply IH.
Qed.

Lemma keeps_milestone_try idx description roles :
  keeps view (milestone_try idx description roles).
Proof.
  apply keeps_try_except.
  - apply keeps_bind; [apply keeps_milestone_loop|]. intros results.
    apply keeps_bind; [by apply keeps_modify_milestone|]. intros _.
    apply keeps_bind; [apply keeps_in_world|]. intros completed.
    apply keeps_bind; [by apply keeps_modify_milestone|]. intros _.
    apply keeps_bind; [apply keeps_checkpoint|]. intros _. apply keeps_ret.
  - intros e.
    apply keeps_bind; [by apply keeps_modify_milestone|]. intros _.
    apply keeps_bind; [apply keeps_checkpoint|]. intros _. apply keeps_raise.
Qed.

(** A view that is also blind to the milestone appended. *)
Hypothesis view_append : forall m o,
  view (set_milestones (fun ms => ms ++ [m]) <$> o) = view o.

Lemma keeps_process_milestone description : keeps view (process_milestone description).
Proof.
  apply keeps_bind; [apply keeps_get_obj|]. intros self.
  destruct (SoftwareTeam.state self); [|apply keeps_raise].
  apply keeps_bind; [apply keeps_in_world|]. intros created.
  apply keeps_bind; [apply keeps_modify_state; intros o; apply view_append|].
  intros _.
  apply keeps_bind; [apply keeps_modify_state; intros o; apply view_current|].
  intros _.
  apply keeps_bind; [apply keeps_checkpoint|]. intros _.
  apply keeps_milestone_try.
Qed.

Lemma keeps_after_later (c : later_call) (s : World * SoftwareTeam.t) :
  view (SoftwareTeam.state (after_later c s).2) = view (SoftwareTeam.state s.2).
Proof. destruct c; [apply keeps_resume_project|apply keeps_process_milestone]. Qed.

Lemma keeps_after_laters (cs : list later_call) (s : World * SoftwareTeam.t) :
  view (SoftwareTeam.state (after_laters cs s).2) = view (SoftwareTeam.state s.2).
Proof.
  revert s. induction cs as [|c cs IH]; intros s; [done|].
  unfold after_laters in *. simpl. rewrite IH. apply keeps_after_later.
Qed.
End Frame.

(** The state [start_new_project] builds, whatever the checkpoint does. *)
Lemma start_new_project_state name requirements (w : World) (team : SoftwareTeam.t) :
  SoftwareTeam.state (start_new_project name requirements (w, team)).1.2 =
  Some {| ProjectState.project_id := VStr (SoftwareTeam.project_id team);
          ProjectState.name := VStr name;
          ProjectState.requirements := VStr requirements;
          ProjectState.status := VEnum NOT_STARTED;
          ProjectState.created_at := VStr (isoformat (clock w));
          ProjectState.updated_at := VStr (isoformat (clock w));
          ProjectState.milestones := [];
          ProjectState.learning_points := VList [];
          ProjectState.team_feedback :=
            VDict ((fun agent => (agent, VList [])) <$> (SoftwareTeam.agents team).*1);
          ProjectState.current_milestone_id := VNone |}.
Proof.
  unfold start_new_project, bind, in_world, zoom, now, get_obj, modify_obj.
  cbn -[checkpoint].
  match goal with |- context [checkpoint ?s] => exact (keeps_checkpoint id s) end.
Qed.

(** ** The status of the project *)

(** C9.  [start_new_project] sets the status of the project to NOT_STARTED,
    and no later call of [resume_project] or [process_milestone], returning or
    raising, changes the status a project state has: after any sequence of
    them it is the one set at creation. *)
Theorem project_status_set_at_creation name requirements (w : World)
    (team : SoftwareTeam.t) (cs : list later_call) (s : World * SoftwareTeam.t) :
  ProjectState.status <$>
    SoftwareTeam.state (start_new_project name requirements (w, team)).1.2 =
    Some (VEnum NOT_STARTED) /\
  ProjectState.status <$>
    SoftwareTeam.state (after_laters cs (start_new_project name requirements (w, team)).1).2 =
    Some (VEnum NOT_STARTED) /\
  ProjectState.status <$> SoftwareTeam.state (after_laters cs s).2 =
    ProjectState.status <$> SoftwareTeam.state s.2.
Proof.
  assert (forall s',
    ProjectState.status <$> SoftwareTeam.state (after_laters cs s').2 =
    ProjectState.status <$> SoftwareTeam.state s'.2) as Hkeep.
  { intros s'. apply (keeps_after_laters (fmap ProjectState.status)).
    - by intros f idx [st|] Hf.
    - by intros v [st|].
    - by intros m [st|]. }
  split; [|split].
  - by rewrite start_new_project_state.
  - by rewrite Hkeep, start_new_project_state.
  - apply Hkeep.
Qed.

(** ** The timestamp of the last update *)

(** C10.  [start_new_project] writes [updated_at] once, with the timestamp it
    gives [created_at], and no later call of [resume_project] or
    [process_milestone], returning or raising, writes it again. *)
Theorem updated_at_written_once name requirements (w : World)
    (team : SoftwareTeam.t) (cs : list later_call) (s : World * SoftwareTeam.t) :
  (exists st,
     SoftwareTeam.state (start_new_project name requirements (w, team)).1.2 = Some st /\
     ProjectState.updated_at st = VStr (isoformat (clock w)) /\
     ProjectState.updated_at st = ProjectState.created_at st) /\
  ProjectState.updated_at <$>
    SoftwareTeam.state (after_laters cs (start_new_project name requirements (w, team)).1).2 =
    Some (VStr (isoformat (clock w))) /\
  ProjectState.updated_at <$> SoftwareTeam.state (after_laters cs s).2 =
    ProjectState.updated_at <$> SoftwareTeam.state s.2.
Proof.
  assert (forall s',
    ProjectState.updated_at <$> SoftwareTeam.state (after_laters cs s').2 =
    ProjectState.updated_at <$> SoftwareTeam.state s'.2) as Hkeep.
  { intros s'. apply (keeps_after_laters (fmap ProjectState.updated_at)).
    - by intros f idx [st|] Hf.
    - by intros v [st|].
    - by intros m [st|]. }
  split; [|split].
  - eexists. by rewrite start_new_project_state.
  - by rewrite Hkeep, start_new_project_state.
  - apply Hkeep.
Qed.

(** ** The identifiers of the milestones *)

Lemma nth_milestone_id_inj : Inj (=) (=) nth_milestone_id.
Proof.
  intros n1 n2 H. unfold nth_milestone_id in H.
  injection H as H. apply (inj (String.app _)) in H. by apply (inj pretty).
Qed.

Lemma milestone_ids_alter (f : Milestone.t -> Milestone.t) idx o :
  (forall m, Milestone.id (f m) = Milestone.id m) ->
  milestone_ids (set_milestones (alter f idx) <$> o) = milestone_ids o.
Proof.
  intros Hf. destruct o as [st|]; [|done]. simpl.
  apply list_eq. intros i. rewrite !list_lookup_fmap.
  destruct (decide (i = idx)) as [->|Hne].
  - rewrite list_lookup_alter_eq. destruct (_ !! idx); simpl; by rewrite ?Hf.
  - by rewrite list_lookup_alter_ne.
Qed.

(** A call of [process_milestone] on a project appends one identifier, the
    one of the position it takes; without a project it appends none. *)
Lemma process_milestone_ids description (s : World * SoftwareTeam.t) :
  milestone_ids (SoftwareTeam.state (process_milestone description s).1.2) =
  match SoftwareTeam.state s.2 with
  | Some st =>
      milestone_ids (Some st) ++
      [nth_milestone_id (length (ProjectState.milestones st) + 1)]
  | None => []
  end.
Proof.
  destruct s as [w team]. unfold process_milestone, bind at 1, get_obj. simpl.
  destruct (SoftwareTeam.state team) as [st|] eqn:Est; [|by simpl; rewrite Est].
  unfold bind at 1, in_world, zoom, now. simpl.
  unfold bind at 1. simpl. unfold bind at 1. simpl.
  match goal with |- context [bind checkpoint ?k ?s] =>
    assert (keeps milestone_ids (bind checkpoint k)) as Hk
  end.
  { apply keeps_bind; [apply keeps_checkpoint|]. intros _.
    apply keeps_milestone_try, milestone_ids_alter. }
  rewrite Hk. simpl. rewrite Est. simpl. by rewrite fmap_app.
Qed.

(** What one call leaves of the project: [start_new_project] a project
    without milestones, [resume_project] the project as it was, and
    [process_milestone] the project with one milestone more, whose
    identifier is the one of the position it takes. *)
Lemma after_call_milestones (c : call) (s : World * SoftwareTeam.t) (o : option nat) :
  match o with
  | Some n =>
      exists st, SoftwareTeam.state s.2 = Some st /\
        milestone_ids (Some st) = nth_milestone_id <$> seq 1 n
  | None => SoftwareTeam.state s.2 = None
  end ->
  match milestones_after_call o c with
  | Some n =>
      exists st, SoftwareTeam.state (after_call c s).2 = Some st /\
        milestone_ids (Some st) = nth_milestone_id <$> seq 1 n
  | None => SoftwareTeam.state (after_call c s).2 = None
  end.
Proof.
  intros H. destruct c as [name reqs|[|description]];
    cbn [milestones_after_call after_call after_later].
  - destruct s as [w team]. rewrite start_new_project_state. by eexists.
  - pose proof (keeps_resume_project (fun o => o) s) as Hk. cbv beta in Hk.
    by rewrite Hk.
  - pose proof (process_milestone_ids description s) as Hids.
    destruct o as [n|]; cbn [fmap option_fmap option_map].
    + destruct H as (st & Hst & Hn). rewrite Hst in Hids.
      destruct (SoftwareTeam.state (process_milestone description s).1.2) as [st'|] eqn:Hst'.
      2:{ by destruct (milestone_ids (Some st)). }
      exists st'. split; [done|]. rewrite Hids, Hn.
      assert (length (ProjectState.milestones st) = n) as <-.
      { pose proof (f_equal length Hn) as Hl. unfold milestone_ids in Hl.
        by rewrite !length_fmap, length_seq in Hl. }
      by rewrite seq_S, fmap_app, Nat.add_1_r.
    + destruct s as [w team]. cbn [snd] in H.
      unfold process_milestone, bind, get_obj. cbn [fst snd]. by rewrite H.
Qed.

Lemma after_calls_milestones (cs : list call) (s : World * SoftwareTeam.t) (o : option nat) :
  match o with
  | Some n =>
      exists st, SoftwareTeam.state s.2 = Some st /\
        milestone_ids (Some st) = nth_milestone_id <$> seq 1 n
  | None => SoftwareTeam.state s.2 = None
  end ->
  match foldl milestones_after_call o cs with
  | Some n =>
      exists st, SoftwareTeam.state (after_calls cs s).2 = Some st /\
        milestone_ids (Some st) = nth_milestone_id <$> seq 1 n
  | None => SoftwareTeam.state (after_calls cs s).2 = None
  end.
Proof.
  revert s o. induction cs as [|c cs IH]; intros s o H; [done|].
  unfold after_calls. cbn [foldl]. apply IH. by apply after_call_milestones.
Qed.

(** C4.  Start from a team without a project and make any sequence of calls
    of [start_new_project], [process_milestone] and [resume_project], going
    on after each exception.  Without a [start_new_project] there is no
    project.  Otherwise the project has one milestone for each
    [process_milestone] called since the last [start_new_project], appended
    in the order of the calls, and their identifiers are "milestone_1",
    "milestone_2", ... in the order of the list, the one at the 1-based
    position n being "milestone_n"; so they increase with the position and
    no two are equal.  The call that follows generates its identifier from
    the position it appends at: [process_milestone] keeps the identifiers
    there are and adds the one of the next position. *)
Theorem milestone_ids_match_positions (cs : list call) (w : World) (team : SoftwareTeam.t) :
  let s := after_calls cs (w, set_state None team) in
  match milestones_after cs with
  | None => SoftwareTeam.state s.2 = None
  | Some n =>
      exists st,
        SoftwareTeam.state s.2 = Some st /\
        length (ProjectState.milestones st) = n /\
        milestone_ids (Some st) = nth_milestone_id <$> seq 1 n /\
        NoDup (milestone_ids (Some st)) /\
        forall description,
          milestone_ids (SoftwareTeam.state (process_milestone description s).1.2) =
          milestone_ids (Some st) ++ [nth_milestone_id (n + 1)]
  end.
Proof.
  intros s.
  pose proof (after_calls_milestones cs (w, set_state None team) None eq_refl) as H.
  fold (milestones_after cs) in H. fold s in H.
  destruct (milestones_after cs) as [n|]; [|done].
  destruct H as (st & Hst & Hids). exists st.
  assert (length (ProjectState.milestones st) = n) as Hlen.
  { pose proof (f_equal length Hids) as Hl. unfold milestone_ids in Hl.
    by rewrite !length_fmap, length_seq in Hl. }
  split; [done|]. split; [done|]. split; [done|]. split.
  - rewrite Hids.
    apply (@NoDup_fmap_2 _ _ nth_milestone_id nth_milestone_id_inj), NoDup_seq.
  - intros description. rewrite process_milestone_ids, Hst. by rewrite Hlen.
Qed.

(** ** The first checkpoint of [process_milestone] *)

(** Every call of [process_milestone] on a project raises at the checkpoint
    that follows the append: the state now holds a milestone whose status is
    a member of [ProjectStatus].  The call leaves the milestone appended in
    memory, no document of the state on disk, and has sent no request. *)
Lemma process_milestone_raises description (w : World) (team : SoftwareTeam.t)
    (st : ProjectState.t) :
  SoftwareTeam.state team = Some st ->
  let milestone_id := "milestone_" +:+ pretty (length (ProjectState.milestones st) + 1) in
  let milestone := new_milestone milestone_id description (isoformat (clock w)) in
  process_milestone description (w, team) =
    (({| fs := <[state_path (SoftwareTeam.state_manager team)
                   (py_str (ProjectState.project_id st)) := NotJson]> (fs w);
         clock := S (clock w);
         requests := requests w |},
      set_state
        (Some (set_current_milestone_id (VStr milestone_id)
                 (set_milestones (fun ms => ms ++ [milestone]) st)))
        team),
     Raises not_serializable).
Proof.
  intros Est milestone_id milestone.
  unfold process_milestone, bind at 1, get_obj. simpl. rewrite Est.
  unfold bind at 1, in_world, zoom, now. simpl.
  unfold bind at 1. simpl. unfold bind at 1. simpl.
  unfold bind at 1, checkpoint, bind at 1, get_obj. simpl.
  unfold bind at 1, the_state, bind at 1, get_obj. simpl. rewrite Est. simpl.
  unfold in_world, zoom. simpl. rewrite save_state_refused; [done|].
  eapply (to_dict_enum_milestone _ milestone); [|done].
  simpl. apply elem_of_app. right. by apply list_elem_of_singleton.
Qed.

(** C8 (defect).  The specification: the new milestone, IN_PROGRESS and
    without feedback, is appended and the state persisted before any role
    runs.  The code: the milestone is appended in memory, but the checkpoint
    that should persist it raises [TypeError]; the project's path holds a text
    that is no document, no request has been sent, and the call is over. *)
Theorem first_checkpoint_not_written description (w : World) (team : SoftwareTeam.t)
    (st : ProjectState.t) :
  let r := process_milestone description (w, set_state (Some st) team) in
  let path := state_path (SoftwareTeam.state_manager team)
                (py_str (ProjectState.project_id st)) in
  (exists st' m,
     SoftwareTeam.state r.1.2 = Some st' /\
     ProjectState.milestones st' = ProjectState.milestones st ++ [m] /\
     Milestone.status m = VEnum IN_PROGRESS /\
     Milestone.feedback m = VList []) /\
  r.2 = Raises not_serializable /\
  fs r.1.1 !! path = Some NotJson /\
  requests r.1.1 = requests w.
Proof.
  intros r path. unfold r.
  rewrite (process_milestone_raises description w (set_state (Some st) team) st eq_refl).
  simpl. repeat split; [|apply lookup_insert_eq].
  eexists _, _. by repeat split.
Qed.

(** ** One invocation of a role agent *)

Lemma json_serializable_list (l : list pyval) :
  json_serializable (VList l) <-> Forall json_serializable l.
Proof.
  unfold json_serializable. change (to_json (VList l)) with (JList <$> mapM to_json l).
  rewrite fmap_is_Some. apply mapM_is_Some.
Qed.

Lemma json_serializable_dict (d : dict) :
  json_serializable (VDict d) <-> Forall (fun kv => json_serializable kv.2) d.
Proof.
  unfold json_serializable.
  change (to_json (VDict d))
    with (JObj <$> mapM (fun kv => pair kv.1 <$> to_json kv.2) d).
  rewrite fmap_is_Some, mapM_is_Some. apply Forall_proper; [|done].
  intros [k v]. simpl. by rewrite fmap_is_Some.
Qed.

Lemma json_serializable_memory (m : AgentMemory.t) :
  json_serializable (memory_dict m) <->
  Forall json_serializable (AgentMemory.decisions m) /\
  Forall json_serializable (AgentMemory.learnings m) /\
  json_serializable (VDict (AgentMemory.context m)) /\
  Forall json_serializable (AgentMemory.next_steps m).
Proof.
  unfold memory_dict. rewrite json_serializable_dict, !Forall_cons, Forall_nil.
  simpl. rewrite !json_serializable_list. tauto.
Qed.

Lemma json_serializable_learning_entry timestamp learning :
  json_serializable (learning_entry timestamp learning).
Proof. by eexists. Qed.

Lemma json_serializable_decision_entry timestamp decision context :
  json_serializable (VDict context) ->
  json_serializable (decision_entry timestamp decision context).
Proof.
  intros H. unfold decision_entry.
  rewrite json_serializable_dict, !Forall_cons, Forall_nil. simpl.
  split; [by eexists|]. split; [by eexists|]. by split.
Qed.

(** [add_learning] on a memory that can be dumped: the entry is appended
    and the file of the memory holds the memory with it. *)
Lemma add_learning_saved learning (w : World) (m : AgentMemory.t) :
  json_serializable (memory_dict m) ->
  let m' := with_learnings
              (AgentMemory.learnings m ++ [learning_entry (isoformat (clock w)) learning]) m in
  exists doc,
    to_json (memory_dict m') = Some doc /\
    add_learning learning (w, m) =
      ((memory_saved doc (AgentMemory.memory_file m) w, m'), Returns tt).
Proof.
  intros H m'.
  assert (json_serializable (memory_dict m')) as [doc Hdoc].
  { apply json_serializable_memory in H as (Hd & Hl & Hc & Hn).
    apply json_serializable_memory. repeat split; try done. simpl.
    apply Forall_app. split; [done|].
    apply Forall_singleton, json_serializable_learning_entry. }
  exists doc. split; [done|].
  unfold add_learning, save_memory.
  unfold bind, in_world, zoom, now, modify_obj, get_obj, dump_file.
  cbn [fst snd]. fold m'. by rewrite Hdoc.
Qed.

(** [add_decision] likewise, for a context that can be dumped. *)
Lemma add_decision_saved decision context (w : World) (m : AgentMemory.t) :
  json_serializable (memory_dict m) ->
  json_serializable (VDict context) ->
  let m' := with_decisions
              (AgentMemory.decisions m ++
               [decision_entry (isoformat (clock w)) decision context]) m in
  exists doc,
    to_json (memory_dict m') = Some doc /\
    add_decision decision context (w, m) =
      ((memory_saved doc (AgentMemory.memory_file m) w, m'), Returns tt).
Proof.
  intros H Hctx m'.
  assert (json_serializable (memory_dict m')) as [doc Hdoc].
  { apply json_serializable_memory in H as (Hd & Hl & Hc & Hn).
    apply json_serializable_memory. repeat split; try done. simpl.
    apply Forall_app. split; [done|].
    by apply Forall_singleton, json_serializable_decision_entry. }
  exists doc. split; [done|].
  unfold add_decision, save_memory.
  unfold bind, in_world, zoom, now, modify_obj, get_obj, dump_file.
  cbn [fst snd]. fold m'. by rewrite Hdoc.
Qed.

Local Arguments to_json : simpl never.

(** The steps of [process_message], one after the other. *)
Lemma process_message_steps message (context : option dict) (save_decision : bool)
    (w : World) (self : SoftwareTeamAgent.t) :
  let role := SoftwareTeamAgent.role self in
  let memory := SoftwareTeamAgent.memory self in
  let full_context :=
    dict_set "memory_summary" (memory_summary memory) (default [] context) in
  process_message message context save_decision (w, self) =
    match alist_get role system_prompts with
    | None => wrap_failure (Exn KeyError (repr_key role)) (w, self)
    | Some system =>
        match to_json (VDict full_context) with
        | None => wrap_failure not_serializable (w, self)
        | Some formatted_context =>
            let rq := request_of system formatted_context message in
            match llm_generate (requests w) rq with
            | Raises cause => wrap_failure cause (request_sent rq w, self)
            | Returns text =>
                if save_decision then
                  match add_decision text full_context (request_sent rq w, memory) with
                  | ((w', m'), Returns _) => ((w', with_memory m' self), Returns text)
                  | ((w', m'), Raises e) => wrap_failure e (w', with_memory m' self)
                  end
                else ((request_sent rq w, self), Returns text)
            end
        end
    end.
Proof.
  destruct self as [role pid memory].
  cbn [SoftwareTeamAgent.role SoftwareTeamAgent.memory]. cbv zeta.
  set (self := {| SoftwareTeamAgent.role := role;
                  SoftwareTeamAgent.project_id := pid;
                  SoftwareTeamAgent.memory := memory |}).
  set (full_context := dict_set "memory_summary" (memory_summary memory) (default [] context)).
  unfold process_message, try_except.
  unfold bind at 1, on_memory at 1, zoom, get_memory_summary at 1, bind at 1,
    get_obj at 1 2, ret at 1.
  cbn [fst snd].
  change (with_memory (SoftwareTeamAgent.memory self) self) with self.
  change (SoftwareTeamAgent.memory self) with memory.
  fold full_context.
  unfold bind at 1. cbn [fst snd].
  change (SoftwareTeamAgent.role self) with role.
  unfold bind at 1.
  destruct (alist_get role system_prompts) as [system|]; [|done].
  unfold ret at 1. unfold _format_input, dumps.
  unfold bind at 1. unfold bind at 1.
  destruct (to_json (VDict full_context)) as [fc|]; [|done].
  unfold ret at 1 2. unfold bind at 1. unfold in_world, zoom, generate. cbn [fst snd].
  fold (request_of system fc message). fold (request_sent (request_of system fc message) w).
  destruct (llm_generate _ _) as [text|cause]; [|done].
  unfold bind at 1.
  destruct save_decision; [|done].
  unfold on_memory, zoom. cbn [fst snd].
  change (SoftwareTeamAgent.memory self) with memory.
  destruct (add_decision _ _ _) as [[w2 m2] [[]|e]]; done.
Qed.

(** The [except] clause on a memory that can be dumped: the learning is
    appended and saved, then the wrapped failure is raised. *)
Lemma wrap_failure_saved (cause : exn) (w : World) (self : SoftwareTeamAgent.t) :
  json_serializable (memory_dict (SoftwareTeamAgent.memory self)) ->
  let memory := SoftwareTeamAgent.memory self in
  let memory' :=
    with_learnings
      (AgentMemory.learnings memory ++
       [learning_entry (isoformat (clock w)) ("Error encountered: " +:+ exn_str cause)])
      memory in
  exists doc,
    to_json (memory_dict memory') = Some doc /\
    wrap_failure cause (w, self) =
      ((memory_saved doc (AgentMemory.memory_file memory) w, with_memory memory' self),
       Raises (Exn RuntimeError
         ("Error in " +:+ SoftwareTeamAgent.role self +:+ " agent: " +:+ exn_str cause))).
Proof.
  intros Hmem memory memory'.
  destruct (add_learning_saved ("Error encountered: " +:+ exn_str cause) w memory Hmem)
    as (doc & Hdoc & Heq).
  exists doc. split; [done|].
  unfold wrap_failure, bind, on_memory, zoom, get_obj, raise. cbn [fst snd].
  fold memory. by rewrite Heq.
Qed.


(** The memory the constructor builds can be dumped, and an invocation
    leaves a memory that can be dumped one that can be dumped. *)
Lemma AgentMemory_new_serializable agent_id project_id :
  json_serializable (memory_dict (AgentMemory_new agent_id project_id)).
Proof. by eexists. Qed.

Lemma process_message_keeps_serializable message context save_decision
    (w : World) (self : SoftwareTeamAgent.t) :
  json_serializable (memory_dict (SoftwareTeamAgent.memory self)) ->
  json_serializable (memory_dict (SoftwareTeamAgent.memory
    (process_message message context save_decision (w, self)).1.2)).
Proof.
  intros Hmem. rewrite process_message_steps.
  destruct (alist_get _ system_prompts) as [system|].
  2:{ destruct (wrap_failure_saved (Exn KeyError (repr_key (SoftwareTeamAgent.role self)))
                  w self Hmem) as (doc & Hdoc & ->). by exists doc. }
  destruct (to_json (VDict _)) as [fc|] eqn:Ectx.
  2:{ destruct (wrap_failure_saved not_serializable w self Hmem) as (doc & Hdoc & ->).
      by exists doc. }
  cbv zeta. destruct (llm_generate _ _) as [text|cause].
  2:{ destruct (wrap_failure_saved cause (request_sent (request_of system fc message) w)
                  self Hmem) as (doc & Hdoc & ->). by exists doc. }
  destruct save_decision; [|done].
  destruct (add_decision_saved text _ (request_sent (request_of system fc message) w)
              _ Hmem (ex_intro _ fc Ectx)) as (doc & Hdoc & ->).
  by exists doc.
Qed.

(** The context that [process_milestone] hands to a role holds the milestone,
    whose status is a member of [ProjectStatus]: it cannot be rendered, and
    the invocation fails before any request is sent. *)
Lemma milestone_context_refused (st : ProjectState.t) (milestone : Milestone.t)
    (e : ProjectStatus) (results : dict) (summary : pyval) :
  Milestone.status milestone = VEnum e ->
  to_json (VDict (dict_set "memory_summary" summary
                    [("project_state", to_dict st);
                     ("current_milestone", asdict milestone);
                     ("previous_results", VDict results)])) = None.
Proof.
  intros H. apply to_json_dict_None. cbn [dict_set decide]. simpl.
  apply Exists_cons_tl, Exists_cons_hd. simpl. by eapply asdict_enum_status.
Qed.

Lemma milestone_role_call_raises message (st : ProjectState.t) (milestone : Milestone.t)
    (e : ProjectStatus) (results : dict) (w : World) (self : SoftwareTeamAgent.t) :
  Milestone.status milestone = VEnum e ->
  let r := process_message message
             (Some [("project_state", to_dict st);
                    ("current_milestone", asdict milestone);
                    ("previous_results", VDict results)]) true (w, self) in
  (exists err, r.2 = Raises err) /\ requests r.1.1 = requests w.
Proof.
  intros H r. unfold r. rewrite process_message_steps. cbv zeta.
  change (default [] (Some ?l)) with l.
  rewrite (milestone_context_refused _ _ e) by done.
  assert (forall cause, (exists err, (wrap_failure cause (w, self)).2 = Raises err) /\
            requests (wrap_failure cause (w, self)).1.1 = requests w) as Hw.
  { intros cause. unfold wrap_failure, bind, on_memory, zoom, add_learning, bind,
      in_world, zoom, now, modify_obj, save_memory, bind, get_obj, in_world, zoom,
      dump_file, raise.
    cbn [fst snd].
    destruct (to_json (memory_dict _)); cbn [fst snd set_fs requests]; eauto. }
  destruct (alist_get _ system_prompts); apply Hw.
Qed.

(** ** What [load_state] returns *)

Lemma has_keys_no_unexpected required allowed kw :
  has_keys required allowed kw = true -> unexpected_keyword allowed kw = None.
Proof.
  unfold has_keys, unexpected_keyword. intros [H _]%andb_true_iff.
  induction (dict_keys kw) as [|k ks IH]; [done|].
  simpl in H. apply andb_true_iff in H as [Hk Hks].
  apply bool_decide_eq_true in Hk.
  rewrite filter_cons_False by (by intros Hn; apply Hn). by apply IH.
Qed.

Lemma has_keys_required required allowed kw k :
  has_keys required allowed kw = true -> k ∈ required ->
  dict_get k kw = Some (field k kw).
Proof.
  unfold has_keys, field. intros [_ H]%andb_true_iff Hk.
  rewrite forallb_forall in H. apply list_elem_of_In, H in Hk.
  apply bool_decide_eq_true in Hk as [v ->]. done.
Qed.

Lemma Milestone_splat_document (v : pyval) :
  is_milestone_document v = true -> Milestone_splat v = Returns (milestone_of v).
Proof.
  destruct v as [| | | | |kw|]; try done. simpl. intros H.
  unfold Milestone_init. rewrite (has_keys_no_unexpected _ _ _ H).
  rewrite !(has_keys_required _ _ _ _ H) by (apply list_elem_of_In; simpl; tauto).
  done.
Qed.

Lemma comprehension_documents (items : list pyval) :
  forallb is_milestone_document items = true ->
  comprehension Milestone_splat items = Returns (milestone_of <$> items).
Proof.
  induction items as [|v items IH]; [done|]. simpl.
  intros [Hv Hitems]%andb_true_iff.
  by rewrite (Milestone_splat_document v Hv), (IH Hitems).
Qed.

Lemma from_dict_document (data : pyval) :
  is_state_document data = true -> from_dict data = Returns (state_of data).
Proof.
  destruct data as [| | | | |kw|]; try done. simpl.
  intros [Hkeys Hms]%andb_true_iff.
  assert (field "milestones" kw = default VNone (dict_get "milestones" kw)) as Hf by done.
  destruct (dict_get "milestones" kw) as [[| | | |items| |]|]; try done.
  simpl. rewrite (comprehension_documents items Hms).
  unfold ProjectState_init. rewrite (has_keys_no_unexpected _ _ _ Hkeys).
  rewrite !(has_keys_required _ _ _ _ Hkeys)
    by (apply list_elem_of_In; simpl; tauto).
  unfold state_of. cbv zeta. cbn [as_dict]. by rewrite Hf.
Qed.

(** C6 (defect).  The specification: for an identifier for which no document
    was ever saved [load_state] returns absence, not an error, and when a
    document exists it returns the state.  The code decides by the file, for
    an identifier that names one.  Without a file [load_state] returns
    [None].  With a file it never returns [None]: if the file holds a project
    document, it returns the [ProjectState] whose fields are the values of
    the document and whose milestones are [Milestone] objects, one per
    object of the document's list and in its order; if the file holds text
    that is no JSON, it raises [JSONDecodeError].  Such a text is what every
    [save_state] that raised has left, so for a project that
    [start_new_project] has just tried to save, and for which no document
    was ever saved, the call is an error and not absence.  The world is left
    as it was. *)
Theorem load_state_outcome (self : ProjectStateManager) (project_id : string) (w : World) :
  names_a_file project_id = true ->
  match fs w !! state_path self project_id with
  | None => load_state self project_id w = (w, Returns None)
  | Some NotJson =>
      exists e,
        load_state self project_id w = (w, Raises e) /\
        exn_class_of e = JSONDecodeError
  | Some (JsonText doc) =>
      (load_state self project_id w).1 = w /\
      (load_state self project_id w).2 <> Returns None /\
      (is_state_document (of_json doc) = true ->
       exists state items,
         load_state self project_id w = (w, Returns (Some state)) /\
         state = state_of (of_json doc) /\
         field "milestones" (as_dict (of_json doc)) = VList items /\
         ProjectState.milestones state = milestone_of <$> items /\
         length (ProjectState.milestones state) = length items)
  end.
Proof.
  intros _. unfold load_state, bind, file_exists, load_file, lift, ret.
  destruct (fs w !! state_path self project_id) as [[doc|]|] eqn:H.
  - rewrite bool_decide_eq_true_2 by eauto. rewrite H.
    split; [by destruct (from_dict (of_json doc))|].
    split; [by destruct (from_dict (of_json doc))|].
    intros Hdoc.
    assert (exists items,
      field "milestones" (as_dict (of_json doc)) = VList items) as [items Hitems].
    { destruct (of_json doc) as [| | | | |kw|]; try done. simpl in Hdoc.
      apply andb_true_iff in Hdoc as [_ Hms]. unfold field. cbn [as_dict].
      destruct (dict_get "milestones" kw) as [[| | | |items| |]|]; try done.
      by exists items. }
    exists (state_of (of_json doc)), items.
    split; [by rewrite (from_dict_document _ Hdoc)|].
    split; [done|]. split; [done|].
    assert (ProjectState.milestones (state_of (of_json doc)) = milestone_of <$> items)
      as Hms by (unfold state_of; cbv zeta; cbn [ProjectState.milestones]; by rewrite Hitems).
    split; [done|]. by rewrite Hms, length_fmap.
  - rewrite bool_decide_eq_true_2 by eauto. rewrite H. by eexists.
  - rewrite bool_decide_eq_false_2; [done|]. by intros [? ?].
Qed.

(** * Further properties *)

(** ** What an invocation touches *)

(** [add_learning] and [add_decision] on any memory: the entry is appended
    in memory, the clock is read once, the file of the memory is rewritten,
    and the only exception is the one of the dump. *)
Lemma add_learning_effect learning (w : World) (m : AgentMemory.t) :
  exists f r,
    add_learning learning (w, m) =
      (({| fs := <[AgentMemory.memory_file m := f]> (fs w);
           clock := S (clock w);
           requests := requests w |},
        with_learnings
          (AgentMemory.learnings m ++ [learning_entry (isoformat (clock w)) learning]) m),
       r) /\
    (r = Returns tt \/ r = Raises not_serializable /\ f = NotJson).
Proof.
  unfold add_learning, save_memory.
  unfold bind, in_world, zoom, now, modify_obj, get_obj, dump_file.
  cbn [fst snd]. destruct (to_json (memory_dict _)); eexists _, _; split; eauto.
Qed.

Lemma add_decision_effect decision context (w : World) (m : AgentMemory.t) :
  exists f r,
    add_decision decision context (w, m) =
      (({| fs := <[AgentMemory.memory_file m := f]> (fs w);
           clock := S (clock w);
           requests := requests w |},
        with_decisions
          (AgentMemory.decisions m ++
           [decision_entry (isoformat (clock w)) decision context]) m),
       r) /\
    (r = Returns tt \/ r = Raises not_serializable /\ f = NotJson).
Proof.
  unfold add_decision, save_memory.
  unfold bind, in_world, zoom, now, modify_obj, get_obj, dump_file.
  cbn [fst snd]. destruct (to_json (memory_dict _)); eexists _, _; split; eauto.
Qed.

(** The [except] clause on any memory: it always raises, the wrapped
    failure when the learning could be saved, the error of the dump when
    not. *)
Lemma wrap_failure_effect (cause : exn) (w : World) (self : SoftwareTeamAgent.t) :
  let m := SoftwareTeamAgent.memory self in
  exists f e,
    wrap_failure cause (w, self) =
      (({| fs := <[AgentMemory.memory_file m := f]> (fs w);
           clock := S (clock w);
           requests := requests w |},
        with_memory
          (with_learnings
             (AgentMemory.learnings m ++
              [learning_entry (isoformat (clock w))
                 ("Error encountered: " +:+ exn_str cause)]) m) self),
       Raises e) /\
    (e = Exn RuntimeError
           ("Error in " +:+ SoftwareTeamAgent.role self +:+ " agent: " +:+ exn_str cause)
     \/ e = not_serializable /\ f = NotJson).
Proof.
  intros m.
  destruct (add_learning_effect ("Error encountered: " +:+ exn_str cause) w m)
    as (f & r & Heq & Hr).
  unfold wrap_failure, bind, on_memory, zoom, get_obj, raise. cbn [fst snd].
  fold m. rewrite Heq. cbn [fst snd].
  destruct Hr as [->|[-> ->]]; eexists _, _; split; eauto.
Qed.

Ltac frame_lists :=
  repeat match goal with
  | |- _ /\ _ => split
  | |- exists l, ?a = ?a ++ l /\ _ => exists []; split; [by rewrite app_nil_r | simpl; lia]
  | |- exists l, ?a ++ ?b = ?a ++ l /\ _ => exists b; split; [done | simpl; lia]
  | |- delete ?k (<[?k := _]> _) = _ => rewrite delete_insert_eq
  | |- _ => done
  end.

(** X1.  On every input, returning or raising, an invocation keeps the role, the
    project and the file of the agent, the context and the next steps of its
    memory; it appends at most one decision and at most one learning and
    changes no earlier entry; it sends at most one request; and the only file
    it writes is the file of the memory. *)
Theorem process_message_frame message (context : option dict) (save_decision : bool)
    (w : World) (self : SoftwareTeamAgent.t) :
  let r := process_message message context save_decision (w, self) in
  let m := SoftwareTeamAgent.memory self in
  let m' := SoftwareTeamAgent.memory r.1.2 in
  SoftwareTeamAgent.role r.1.2 = SoftwareTeamAgent.role self /\
  SoftwareTeamAgent.project_id r.1.2 = SoftwareTeamAgent.project_id self /\
  AgentMemory.memory_file m' = AgentMemory.memory_file m /\
  AgentMemory.context m' = AgentMemory.context m /\
  AgentMemory.next_steps m' = AgentMemory.next_steps m /\
  (exists ds, AgentMemory.decisions m' = AgentMemory.decisions m ++ ds /\ length ds <= 1) /\
  (exists ls, AgentMemory.learnings m' = AgentMemory.learnings m ++ ls /\ length ls <= 1) /\
  (exists rqs, requests r.1.1 = requests w ++ rqs /\ length rqs <= 1) /\
  delete (AgentMemory.memory_file m) (fs r.1.1) = delete (AgentMemory.memory_file m) (fs w).
Proof.
  intros r m m'. unfold m', r. clear m' r.
  rewrite process_message_steps. fold m.
  destruct (alist_get _ system_prompts) as [system|].
  2:{ destruct (wrap_failure_effect (Exn KeyError (repr_key (SoftwareTeamAgent.role self)))
                  w self) as (f & e & -> & _).
      cbn [fst snd with_memory with_learnings SoftwareTeamAgent.role
           SoftwareTeamAgent.project_id SoftwareTeamAgent.memory AgentMemory.memory_file
           AgentMemory.context AgentMemory.next_steps AgentMemory.decisions
           AgentMemory.learnings requests fs]. fold m. frame_lists. }
  destruct (to_json (VDict _)) as [fc|].
  2:{ destruct (wrap_failure_effect not_serializable w self) as (f & e & -> & _).
      cbn [fst snd with_memory with_learnings SoftwareTeamAgent.role
           SoftwareTeamAgent.project_id SoftwareTeamAgent.memory AgentMemory.memory_file
           AgentMemory.context AgentMemory.next_steps AgentMemory.decisions
           AgentMemory.learnings requests fs]. fold m. frame_lists. }
  cbv zeta. set (rq := request_of system fc message).
  destruct (llm_generate (requests w) rq) as [text|cause].
  2:{ destruct (wrap_failure_effect cause (request_sent rq w) self) as (f & e & -> & _).
      cbn [fst snd with_memory with_learnings SoftwareTeamAgent.role
           SoftwareTeamAgent.project_id SoftwareTeamAgent.memory AgentMemory.memory_file
           AgentMemory.context AgentMemory.next_steps AgentMemory.decisions
           AgentMemory.learnings requests fs request_sent]. fold m. frame_lists. }
  destruct save_decision.
  2:{ cbn [fst snd requests fs request_sent]. fold m. frame_lists. }
  destruct (add_decision_effect text
              (dict_set "memory_summary" (memory_summary m) (default [] context))
              (request_sent rq w) m) as (f & res & -> & Hres).
  destruct Hres as [->|[-> ->]].
  - cbn [fst snd with_memory with_decisions SoftwareTeamAgent.role
         SoftwareTeamAgent.project_id SoftwareTeamAgent.memory AgentMemory.memory_file
         AgentMemory.context AgentMemory.next_steps AgentMemory.decisions
         AgentMemory.learnings requests fs request_sent]. frame_lists.
  - match goal with |- context [wrap_failure ?c (?w1, ?s1)] =>
      destruct (wrap_failure_effect c w1 s1) as (f & e & -> & _) end.
    cbn [fst snd with_memory with_decisions with_learnings SoftwareTeamAgent.role
         SoftwareTeamAgent.project_id SoftwareTeamAgent.memory AgentMemory.memory_file
         AgentMemory.context AgentMemory.next_steps AgentMemory.decisions
         AgentMemory.learnings requests fs request_sent clock]. fold m.
    frame_lists.
Qed.

(** ** A memory that cannot be dumped *)

Lemma memory_dict_refused_learnings (m : AgentMemory.t) (ls : list pyval) :
  to_json (memory_dict m) = None ->
  to_json (memory_dict (with_learnings (AgentMemory.learnings m ++ ls) m)) = None.
Proof.
  rewrite !eq_None_not_Some. intros H Hs. apply H. clear H.
  change (json_serializable (memory_dict m)).
  apply json_serializable_memory in Hs as (Hd & Hl & Hc & Hn).
  simpl in *. apply Forall_app in Hl as [Hl _].
  by apply json_serializable_memory.
Qed.

Lemma memory_dict_refused_decisions (m : AgentMemory.t) (ds : list pyval) :
  to_json (memory_dict m) = None ->
  to_json (memory_dict (with_decisions (AgentMemory.decisions m ++ ds) m)) = None.
Proof.
  rewrite !eq_None_not_Some. intros H Hs. apply H. clear H.
  change (json_serializable (memory_dict m)).
  apply json_serializable_memory in Hs as (Hd & Hl & Hc & Hn).
  simpl in *. apply Forall_app in Hd as [Hd _].
  by apply json_serializable_memory.
Qed.

(** The world after a dump at one reading of the clock was refused. *)
Lemma add_learning_dump learning (w : World) (m : AgentMemory.t) :
  let m' := with_learnings
              (AgentMemory.learnings m ++ [learning_entry (isoformat (clock w)) learning]) m in
  add_learning learning (w, m) =
    match to_json (memory_dict m') with
    | Some doc => ((memory_saved doc (AgentMemory.memory_file m) w, m'), Returns tt)
    | None =>
        (({| fs := <[AgentMemory.memory_file m := NotJson]> (fs w);
             clock := S (clock w);
             requests := requests w |}, m'),
         Raises not_serializable)
    end.
Proof.
  intros m'. unfold add_learning, save_memory.
  unfold bind, in_world, zoom, now, modify_obj, get_obj, dump_file.
  cbn [fst snd]. fold m'. by destruct (to_json (memory_dict m')).
Qed.

Lemma wrap_failure_refused (cause : exn) (w : World) (self : SoftwareTeamAgent.t) :
  to_json (memory_dict (SoftwareTeamAgent.memory self)) = None ->
  exists s',
    wrap_failure cause (w, self) = (s', Raises not_serializable) /\
    fs s'.1 !! AgentMemory.memory_file (SoftwareTeamAgent.memory self) = Some NotJson.
Proof.
  intros H.
  unfold wrap_failure, bind, on_memory, zoom, get_obj, raise. cbn [fst snd].
  rewrite add_learning_dump. cbv zeta.
  rewrite (memory_dict_refused_learnings _ _ H). cbn [fst snd].
  eexists. split; [done|]. cbn [fst snd fs]. apply lookup_insert_eq.
Qed.

(** X2.  When the memory of the agent holds an object that [json] cannot dump,
    an invocation returns only if nothing had to be saved, and then leaves
    the agent as it was; every other invocation raises the [TypeError] of the
    dump, not a wrapped failure, and leaves a text that is no document in
    the file of the memory. *)
Theorem process_message_memory_refused message (context : option dict)
    (save_decision : bool) (w : World) (self : SoftwareTeamAgent.t) :
  to_json (memory_dict (SoftwareTeamAgent.memory self)) = None ->
  let r := process_message message context save_decision (w, self) in
  match r.2 with
  | Returns _ => save_decision = false /\ r.1.2 = self
  | Raises e =>
      e = not_serializable /\
      fs r.1.1 !! AgentMemory.memory_file (SoftwareTeamAgent.memory self) = Some NotJson
  end.
Proof.
  intros H r. unfold r. clear r. rewrite process_message_steps.
  destruct (alist_get _ system_prompts) as [system|].
  2:{ by destruct (wrap_failure_refused (Exn KeyError (repr_key (SoftwareTeamAgent.role self)))
                  w self H) as (s' & -> & Hfs). }
  destruct (to_json (VDict _)) as [fc|].
  2:{ by destruct (wrap_failure_refused not_serializable w self H) as (s' & -> & Hfs). }
  cbv zeta. set (rq := request_of system fc message).
  destruct (llm_generate (requests w) rq) as [text|cause].
  2:{ by destruct (wrap_failure_refused cause (request_sent rq w) self H) as (s' & -> & Hfs). }
  destruct save_decision; [|done].
  unfold add_decision, save_memory.
  unfold bind, in_world, zoom, now, modify_obj, get_obj, dump_file. cbn [fst snd].
  rewrite (memory_dict_refused_decisions _ _ H). cbn [fst snd].
  match goal with |- context [wrap_failure ?c (?w1, ?s1)] =>
    destruct (wrap_failure_refused c w1 s1) as (s' & -> & Hfs) end.
  { cbn [with_memory SoftwareTeamAgent.memory].
    apply (memory_dict_refused_decisions _ _ H). }
  done.
Qed.

(** ** Starting and resuming a project *)

(** X3.  [start_new_project] never returns, for a team whose project
    identifier names a file.  Whatever the team held and whatever was on
    disk, it replaces the state in memory by a fresh one without milestones,
    raises the [TypeError] of the dump, and leaves under the path of the
    project a text that is no document, so that the [load_state] that
    follows raises [JSONDecodeError]: a document that was there is lost. *)
Theorem start_new_project_raises name requirements (w : World) (team : SoftwareTeam.t) :
  names_a_file (SoftwareTeam.project_id team) = true ->
  let path := state_path (SoftwareTeam.state_manager team) (SoftwareTeam.project_id team) in
  let w' := {| fs := <[path := NotJson]> (fs w);
               clock := S (clock w);
               requests := requests w |} in
  start_new_project name requirements (w, team) =
    ((w',
      set_state
        (Some (new_project_state (SoftwareTeam.project_id team) name requirements
                 (isoformat (clock w)) (SoftwareTeam.agents team).*1))
        team),
     Raises not_serializable) /\
  exists e,
    load_state (SoftwareTeam.state_manager team) (SoftwareTeam.project_id team) w' =
      (w', Raises e) /\
    exn_class_of e = JSONDecodeError.
Proof.
  intros _ path w'. split.
  - unfold start_new_project, bind, in_world, zoom, now, get_obj, modify_obj.
    cbn -[checkpoint].
    unfold checkpoint, bind, the_state, bind, get_obj, in_world, zoom, ret.
    cbn [fst snd SoftwareTeam.state set_state SoftwareTeam.state_manager].
    rewrite save_state_refused by (by eapply to_dict_enum_status).
    done.
  - unfold load_state, bind, file_exists, load_file. fold path.
    cbn [fs w']. rewrite lookup_insert_eq.
    rewrite bool_decide_eq_true_2 by eauto. cbn [fs w']. rewrite lookup_insert_eq.
    by eexists.
Qed.

(** Lookup and update in a dict whose first entries have other keys. *)
Lemma alist_get_app_r {V} (k : string) (d1 d2 : list (string * V)) :
  k ∉ d1.*1 -> alist_get k (d1 ++ d2) = alist_get k d2.
Proof.
  induction d1 as [|[k' v'] d1 IH]; [done|]. simpl. intros Hk.
  apply not_elem_of_cons in Hk as [Hne Hk].
  destruct (decide (k' = k)) as [->|_]; [done|]. by apply IH.
Qed.

Lemma alist_set_app_r {V} (k : string) (v : V) (d1 d2 : list (string * V)) :
  k ∉ d1.*1 -> alist_set k v (d1 ++ d2) = d1 ++ alist_set k v d2.
Proof.
  induction d1 as [|[k' v'] d1 IH]; [done|]. simpl. intros Hk.
  apply not_elem_of_cons in Hk as [Hne Hk].
  destruct (decide (k' = k)) as [->|_]; [done|]. by rewrite IH.
Qed.

Lemma alist_get_head {V} (k : string) (v : V) (d : list (string * V)) :
  alist_get k ((k, v) :: d) = Some v.
Proof. simpl. by rewrite decide_True. Qed.

Lemma alist_set_head {V} (k : string) (v v' : V) (d : list (string * V)) :
  alist_set k v' ((k, v) :: d) = (k, v') :: d.
Proof. simpl. by rewrite decide_True. Qed.

(** One invocation that is to save its decision, on a memory that can be
    dumped: what it leaves of the agent and of the requests. *)
Lemma process_message_saved_cases message (context : option dict)
    (w : World) (self : SoftwareTeamAgent.t) :
  json_serializable (memory_dict (SoftwareTeamAgent.memory self)) ->
  let r := process_message message context true (w, self) in
  json_serializable (memory_dict (SoftwareTeamAgent.memory r.1.2)) /\
  match r.2 with
  | Returns _ =>
      reviewed self r.1.2 /\
      exists rq,
        requests r.1.1 = requests w ++ [rq] /\
        alist_get (SoftwareTeamAgent.role self) system_prompts = Some (rq_system rq) /\
        hm_task (rq_human rq) = message
  | Raises e =>
      failed self r.1.2 e /\
      exists rqs, requests r.1.1 = requests w ++ rqs /\ length rqs <= 1
  end.
Proof.
  intros Hmem r. unfold r. clear r. rewrite process_message_steps.
  destruct (alist_get _ system_prompts) as [system|] eqn:Esys.
  2:{ destruct (wrap_failure_saved (Exn KeyError (repr_key (SoftwareTeamAgent.role self)))
                  w self Hmem) as (doc & Hdoc & ->).
      cbn [fst snd with_memory SoftwareTeamAgent.memory]. split; [by exists doc|].
      split; [eexists _, _; split; reflexivity|].
      exists []. split; [by rewrite app_nil_r|simpl; lia]. }
  destruct (to_json (VDict _)) as [fc|] eqn:Ectx.
  2:{ destruct (wrap_failure_saved not_serializable w self Hmem) as (doc & Hdoc & ->).
      cbn [fst snd with_memory SoftwareTeamAgent.memory]. split; [by exists doc|].
      split; [eexists _, _; split; reflexivity|].
      exists []. split; [by rewrite app_nil_r|simpl; lia]. }
  cbv zeta. destruct (llm_generate _ _) as [text|cause].
  2:{ destruct (wrap_failure_saved cause (request_sent (request_of system fc message) w)
                  self Hmem) as (doc & Hdoc & ->).
      cbn [fst snd with_memory SoftwareTeamAgent.memory]. split; [by exists doc|].
      split; [eexists _, _; split; reflexivity|].
      eexists [_]. split; [done|]. simpl. lia. }
  destruct (add_decision_saved text _ (request_sent (request_of system fc message) w)
              _ Hmem (ex_intro _ fc Ectx)) as (doc & Hdoc & ->).
  cbn [fst snd with_memory SoftwareTeamAgent.memory]. split; [by exists doc|].
  split; [eexists _, _, _; reflexivity|].
  by eexists.
Qed.

(** [on_agent] on the agent that heads the part of [self.agents] still to
    be visited. *)
Lemma on_agent_next {A} (k : string) (a : SoftwareTeamAgent.t)
    (visited rest : list (string * SoftwareTeamAgent.t)) (m : Agent A)
    (w : World) (team : SoftwareTeam.t) :
  SoftwareTeam.agents team = visited ++ (k, a) :: rest ->
  k ∉ visited.*1 ->
  on_agent k m (w, team) =
    (((m (w, a)).1.1, set_agents (visited ++ (k, (m (w, a)).1.2) :: rest) team),
     (m (w, a)).2).
Proof.
  intros Hags Hk. unfold on_agent. cbn [fst snd]. rewrite Hags.
  rewrite alist_get_app_r, alist_get_head by done.
  destruct (m (w, a)) as [[w' a'] r]. cbn [fst snd].
  by rewrite alist_set_app_r, alist_set_head by done.
Qed.
Lemma set_agents_same (team : SoftwareTeam.t) :
  set_agents (SoftwareTeam.agents team) team = team.
Proof. by destruct team. Qed.

Lemma set_agents_twice ags ags' (team : SoftwareTeam.t) :
  set_agents ags' (set_agents ags team) = set_agents ags' team.
Proof. done. Qed.

Lemma resume_loop_outcome (st : ProjectState.t)
    (todo visited : list (string * SoftwareTeamAgent.t)) (w : World) (team : SoftwareTeam.t) :
  SoftwareTeam.agents team = visited ++ todo ->
  NoDup (visited ++ todo).*1 ->
  SoftwareTeam.state team = Some st ->
  Forall (fun ka => json_serializable (memory_dict (SoftwareTeamAgent.memory ka.2))) todo ->
  let r := resume_loop todo.*1 (w, team) in
  exists rqs,
    requests r.1.1 = requests w ++ rqs /\
    match r.2 with
    | Returns _ =>
        exists todo',
          r.1.2 = set_agents (visited ++ todo') team /\
          Forall2 (fun ka ka' => ka'.1 = ka.1 /\ reviewed ka.2 ka'.2) todo todo' /\
          length rqs = length todo
    | Raises e =>
        exists pre k a post pre' a',
          todo = pre ++ (k, a) :: post /\
          r.1.2 = set_agents (visited ++ pre' ++ (k, a') :: post) team /\
          Forall2 (fun ka ka' => ka'.1 = ka.1 /\ reviewed ka.2 ka'.2) pre pre' /\
          failed a a' e /\
          length pre <= length rqs <= S (length pre)
    end.
Proof.
  revert visited w team.
  induction todo as [|[k a] rest IH]; intros visited w team Hags Hnodup Hst Hmem r.
  - exists []. split; [by rewrite app_nil_r|]. exists []. cbn.
    rewrite app_nil_r in *. rewrite <- Hags, set_agents_same. by repeat split.
  - apply Forall_cons in Hmem as [Ha Hrest]. cbn [snd] in Ha.
    assert (k ∉ visited.*1) as Hk.
    { rewrite fmap_app in Hnodup. apply NoDup_app in Hnodup as (_ & Hdis & _).
      intros Hin. apply (Hdis k Hin). simpl. left. }
    assert (r =
      match process_message "Review project state and provide next steps."
              (Some [("project_state", to_dict st)]) true (w, a) with
      | ((w1, a1), Returns _) =>
          resume_loop rest.*1 (w1, set_agents (visited ++ (k, a1) :: rest) team)
      | ((w1, a1), Raises e) =>
          ((w1, set_agents (visited ++ (k, a1) :: rest) team), Raises e)
      end) as Hstep.
    { unfold r. cbn [fmap list_fmap fst resume_loop].
      unfold bind at 1, the_state, bind at 1, get_obj. cbn [fst snd]. rewrite Hst.
      unfold ret at 1. unfold bind at 1.
      rewrite (on_agent_next k a visited rest _ w team Hags Hk).
      by destruct (process_message _ _ true (w, a)) as [[w1 a1] [text|e]]. }
    rewrite Hstep. clear Hstep r.
    pose proof (process_message_saved_cases
      "Review project state and provide next steps."
      (Some [("project_state", to_dict st)]) w a Ha) as [Hser Hpm].
    cbv zeta in Hpm, Hser.
    destruct (process_message _ _ true (w, a)) as [[w1 a1] [text|e]]; cbn [fst snd] in *.
    + destruct Hpm as [Hrev (rq & Hrqs & _)].
      specialize (IH (visited ++ [(k, a1)]) w1
                     (set_agents (visited ++ (k, a1) :: rest) team)).
      destruct IH as (rqs & Hrqs' & Hres).
      { cbn. by rewrite <- app_assoc. }
      { rewrite <- app_assoc. cbn. by rewrite !fmap_app in *. }
      { done. }
      { done. }
      exists (rq :: rqs). split.
      { rewrite Hrqs', Hrqs, <- app_assoc. done. }
      destruct (resume_loop _ _) as [[w2 team2] [[]|e]]; cbn [fst snd] in *.
      * destruct Hres as (todo' & -> & Hall & Hlen).
        exists ((k, a1) :: todo'). rewrite set_agents_twice, <- app_assoc. cbn.
        split; [done|]. split; [by constructor|]. by rewrite Hlen.
      * destruct Hres as (pre & k' & a' & post & pre' & a'' & -> & -> & Hall & Hfail & Hlen).
        exists ((k, a) :: pre), k', a', post, ((k, a1) :: pre'), a''.
        rewrite set_agents_twice, <- app_assoc. cbn.
        split; [done|]. split; [done|]. split; [by constructor|]. split; [done|]. lia.
    + destruct Hpm as [Hfail (rqs & Hrqs & Hlen)].
      exists rqs. split; [done|].
      exists [], k, a, rest, [], a1. cbn. repeat split; try done. lia.
Qed.

(** X4.  [resume_project] on a project whose agents have memories that can be
    dumped.  The agents are invoked one after the other in the order of
    [self.agents], with the review task.  Either all answer: the call
    returns, each agent has recorded exactly one decision, one request was
    sent per agent.  Or the call raises the wrapped failure of the first
    agent whose invocation failed: the agents before it have recorded one
    decision each, that agent one learning, the agents after it were not
    invoked and are as they were.  The project state is the same object
    afterwards. *)
Theorem resume_project_outcome (st : ProjectState.t) (w : World) (team : SoftwareTeam.t) :
  SoftwareTeam.state team = Some st ->
  NoDup (SoftwareTeam.agents team).*1 ->
  Forall (fun ka => json_serializable (memory_dict (SoftwareTeamAgent.memory ka.2)))
    (SoftwareTeam.agents team) ->
  let r := resume_project (w, team) in
  let agents := SoftwareTeam.agents team in
  SoftwareTeam.state r.1.2 = Some st /\
  exists rqs,
    requests r.1.1 = requests w ++ rqs /\
    match r.2 with
    | Returns _ =>
        Forall2 (fun ka ka' => ka'.1 = ka.1 /\ reviewed ka.2 ka'.2)
          agents (SoftwareTeam.agents r.1.2) /\
        length rqs = length agents
    | Raises e =>
        exists pre k a post pre' a',
          agents = pre ++ (k, a) :: post /\
          SoftwareTeam.agents r.1.2 = pre' ++ (k, a') :: post /\
          Forall2 (fun ka ka' => ka'.1 = ka.1 /\ reviewed ka.2 ka'.2) pre pre' /\
          failed a a' e /\
          length pre <= length rqs <= S (length pre)
    end.
Proof.
  intros Hst Hnodup Hmem r agents.
  pose proof (resume_loop_outcome st agents [] w team eq_refl Hnodup Hst Hmem) as Hloop.
  cbv zeta in Hloop.
  assert (r = resume_loop agents.*1 (w, team)) as Hr.
  { unfold r, resume_project, bind, get_obj. cbn [fst snd]. by rewrite Hst. }
  rewrite Hr. destruct Hloop as (rqs & Hrqs & Hres).
  destruct (resume_loop _ _) as [[w' team'] [[]|e]]; cbn [fst snd] in *.
  - destruct Hres as (todo' & -> & Hall & Hlen). split; [done|].
    exists rqs. by repeat split.
  - destruct Hres as (pre & k & a & post & pre' & a' & Hsplit & -> & Hall & Hfail & Hlen).
    split; [done|]. exists rqs. split; [done|].
    by exists pre, k, a, post, pre', a'.
Qed.

(** X5.  [resume_project] on a project state that [json] cannot dump, as the one
    [start_new_project] has just built: the first agent fails before any
    request is sent, because the context it is handed cannot be rendered (or
    its role has no system description); it records the learning, the call
    raises its wrapped failure, and no other agent is invoked. *)
Theorem resume_project_state_refused (st : ProjectState.t) (k : string)
    (a : SoftwareTeamAgent.t) (rest : list (string * SoftwareTeamAgent.t))
    (w : World) (team : SoftwareTeam.t) :
  SoftwareTeam.state team = Some st ->
  to_json (to_dict st) = None ->
  SoftwareTeam.agents team = (k, a) :: rest ->
  json_serializable (memory_dict (SoftwareTeamAgent.memory a)) ->
  let r := resume_project (w, team) in
  exists a' e,
    r.2 = Raises e /\
    failed a a' e /\
    SoftwareTeam.agents r.1.2 = (k, a') :: rest /\
    requests r.1.1 = requests w /\
    SoftwareTeam.state r.1.2 = Some st.
Proof.
  intros Hst Hjson Hags Hmem r.
  assert (r =
    match process_message "Review project state and provide next steps."
            (Some [("project_state", to_dict st)]) true (w, a) with
    | ((w1, a1), Returns _) =>
        resume_loop rest.*1 (w1, set_agents ((k, a1) :: rest) team)
    | ((w1, a1), Raises e) => ((w1, set_agents ((k, a1) :: rest) team), Raises e)
    end) as ->.
  { unfold r, resume_project, bind at 1, get_obj. cbn [fst snd]. rewrite Hst, Hags.
    cbn [fmap list_fmap fst resume_loop].
    unfold bind at 1, the_state, bind at 1, get_obj. cbn [fst snd]. rewrite Hst.
    unfold ret at 1. unfold bind at 1.
    rewrite (on_agent_next k a [] rest _ w team Hags) by apply not_elem_of_nil.
    by destruct (process_message _ _ true (w, a)) as [[w1 a1] [text|e]]. }
  rewrite process_message_steps. cbv zeta.
  assert (to_json (VDict (dict_set "memory_summary"
            (memory_summary (SoftwareTeamAgent.memory a))
            (default [] (Some [("project_state", to_dict st)])))) = None) as ->.
  { apply to_json_dict_None. cbn. by apply Exists_cons_hd. }
  destruct (alist_get _ system_prompts).
  - destruct (wrap_failure_saved not_serializable w a Hmem) as (doc & Hdoc & ->).
    eexists _, _. split; [done|]. split; [by eexists _, _|]. done.
  - destruct (wrap_failure_saved (Exn KeyError (repr_key (SoftwareTeamAgent.role a)))
                w a Hmem) as (doc & Hdoc & ->).
    eexists _, _. split; [done|]. split; [by eexists _, _|]. done.
Qed.

(** ** What is dumped is what is loaded *)

Lemma pyval_nested_ind (P : pyval -> Prop) :
  P VNone ->
  (forall b, P (VBool b)) ->
  (forall z, P (VInt z)) ->
  (forall s, P (VStr s)) ->
  (forall l, Forall P l -> P (VList l)) ->
  (forall d, Forall (fun kv => P kv.2) d -> P (VDict d)) ->
  (forall e, P (VEnum e)) ->
  forall v, P v.
Proof.
  intros HNone HBool HInt HStr HList HDict HEnum.
  fix IH 1. intros [ | b | z | s | l | d | e].
  - exact HNone.
  - apply HBool.
  - apply HInt.
  - apply HStr.
  - apply HList. induction l as [|v l IHl]; constructor; [apply IH|exact IHl].
  - apply HDict. induction d as [|[k v] d IHd]; constructor; [apply IH|exact IHd].
  - apply HEnum.
Qed.

Lemma keys_unique_list (l : list pyval) :
  keys_unique (VList l) = true <-> Forall (fun v => keys_unique v = true) l.
Proof.
  change (keys_unique (VList l)) with (forallb keys_unique l).
  rewrite forallb_forall, Forall_forall. by setoid_rewrite list_elem_of_In.
Qed.

Lemma keys_unique_dict (d : dict) :
  keys_unique (VDict d) = true <->
  NoDup d.*1 /\ Forall (fun kv => keys_unique kv.2 = true) d.
Proof.
  change (keys_unique (VDict d))
    with (bool_decide (NoDup d.*1) && forallb (fun kv => keys_unique kv.2) d).
  rewrite andb_true_iff, bool_decide_eq_true, forallb_forall, Forall_forall.
  by setoid_rewrite list_elem_of_In.
Qed.

Lemma alist_set_fresh {V} (k : string) (v : V) (d : list (string * V)) :
  k ∉ d.*1 -> alist_set k v d = d ++ [(k, v)].
Proof.
  induction d as [|[k' v'] d IH]; [done|]. simpl. intros Hk.
  apply not_elem_of_cons in Hk as [Hne Hk].
  destruct (decide (k' = k)) as [->|_]; [done|]. by rewrite IH.
Qed.

(** [json.load] of an object whose keys are distinct keeps every member, in
    the order of the text. *)
Lemma of_json_members (g : json -> pyval) (jd : list (string * json)) (acc : dict) :
  NoDup (acc.*1 ++ jd.*1) ->
  foldl (fun acc kv => dict_set kv.1 (g kv.2) acc) acc jd =
  acc ++ ((fun kv => (kv.1, g kv.2)) <$> jd).
Proof.
  revert acc. induction jd as [|[k j] jd IH]; intros acc Hnodup.
  - by rewrite app_nil_r.
  - cbn [foldl fst snd fmap list_fmap]. unfold dict_set at 2.
    rewrite alist_set_fresh.
    + rewrite IH; [by rewrite <- app_assoc|].
      rewrite fmap_app, <- app_assoc. done.
    + apply NoDup_app in Hnodup as (_ & Hdis & _). intros Hin.
      apply (Hdis k Hin). simpl. left.
Qed.

(** The round trip of [json.dump] and [json.load] on the values of the
    program: a value that can be dumped is loaded back as it was. *)
Lemma of_json_to_json (v : pyval) :
  keys_unique v = true -> forall j, to_json v = Some j -> of_json j = v.
Proof.
  induction v as [ | b | z | s | l IH | d IH | e] using pyval_nested_ind;
    intros Hu j Hj; try (injection Hj as <-; done); try done.
  - change (JList <$> mapM to_json l = Some j) in Hj.
    apply fmap_Some in Hj as (js & Hjs & ->).
    apply keys_unique_list in Hu. apply mapM_Some in Hjs.
    cbn [of_json]. f_equal.
    induction Hjs as [|x y l js Hxy Hrest IHrest]; [done|].
    apply Forall_cons in IH as [IHx IHl]. apply Forall_cons in Hu as [Hux Hul].
    cbn. f_equal; [by apply IHx|by apply IHrest].
  - change (JObj <$> mapM (fun kv => pair kv.1 <$> to_json kv.2) d = Some j) in Hj.
    apply fmap_Some in Hj as (jd & Hjd & ->).
    apply keys_unique_dict in Hu as [Hnodup Hu]. apply mapM_Some in Hjd.
    cbn [of_json]. f_equal.
    assert (((fun kv => (kv.1, of_json kv.2)) <$> jd) = d) as Hmap.
    { clear Hnodup.
      induction Hjd as [|[k x] [k' y] d jd Hxy Hrest IHrest]; [done|].
      apply Forall_cons in IH as [IHx IHd]. apply Forall_cons in Hu as [Hux Hud].
      cbn in *. apply fmap_Some in Hxy as (y' & Hy' & Heq). injection Heq as -> ->.
      f_equal; [by rewrite (IHx Hux _ Hy')|by apply IHrest]. }
    rewrite of_json_members; [by rewrite Hmap|].
    cbn. rewrite <- Hmap in Hnodup. rewrite <- list_fmap_compose in Hnodup.
    erewrite list_fmap_ext; [exact Hnodup|]. by intros ? [? ?].
Qed.

Lemma Milestone_splat_asdict (m : Milestone.t) :
  Milestone.feedback m <> VNone -> Milestone_splat (asdict m) = Returns m.
Proof.
  destruct m as [i d s a c co f]. cbn [Milestone.feedback]. intros Hf.
  cbn [Milestone_splat asdict]. unfold Milestone_init.
  change (unexpected_keyword Milestone.fields _) with (@None string).
  cbn. by destruct f.
Qed.

Lemma comprehension_asdict (ms : list Milestone.t) :
  Forall (fun m => Milestone.feedback m <> VNone) ms ->
  comprehension Milestone_splat (asdict <$> ms) = Returns ms.
Proof.
  induction 1 as [|m ms Hm Hms IH]; [done|].
  rewrite fmap_cons. cbn [comprehension].
  by rewrite (Milestone_splat_asdict m Hm), IH.
Qed.

(** [from_dict] undoes [to_dict] on a state whose milestones have a
    feedback, as every constructed milestone has. *)
Lemma from_dict_to_dict (st : ProjectState.t) :
  Forall (fun m => Milestone.feedback m <> VNone) (ProjectState.milestones st) ->
  from_dict (to_dict st) = Returns st.
Proof.
  destruct st as [p n r s c u ms l t cm]. cbn [ProjectState.milestones]. intros Hms.
  unfold from_dict, to_dict. cbn [ProjectState.milestones].
  change (dict_get "milestones" _) with (Some (VList (asdict <$> ms))).
  cbn [iterate]. rewrite (comprehension_asdict ms Hms).
  unfold ProjectState_init.
  change (unexpected_keyword ProjectState.fields _) with (@None string).
  done.
Qed.

(** X6.  A state that holds no member of [ProjectStatus], such as a state that
    was loaded, and whose project identifier names a file: [save_state]
    returns, and the [load_state] that follows returns the state as it was
    saved. *)
Theorem save_then_load_without_enum (self : ProjectStateManager) (st : ProjectState.t)
    (w : World) :
  names_a_file (py_str (ProjectState.project_id st)) = true ->
  json_serializable (to_dict st) ->
  keys_unique (to_dict st) = true ->
  Forall (fun m => Milestone.feedback m <> VNone) (ProjectState.milestones st) ->
  exists w',
    save_state self st w = (w', Returns tt) /\
    load_state self (py_str (ProjectState.project_id st)) w' = (w', Returns (Some st)).
Proof.
  intros _ [doc Hdoc] Hu Hms. eexists. split.
  - unfold save_state, dump_file. by rewrite Hdoc.
  - unfold load_state, bind, file_exists, load_file, lift, ret. cbn [fs set_fs].
    rewrite lookup_insert_eq. rewrite bool_decide_eq_true_2 by eauto.
    cbn [fs set_fs]. rewrite lookup_insert_eq.
    by rewrite (of_json_to_json _ Hu _ Hdoc), (from_dict_to_dict st Hms).
Qed.

(** ** The file of a memory follows the memory *)

Lemma keys_unique_memory (m : AgentMemory.t) :
  keys_unique (memory_dict m) = true <->
  Forall (fun v => keys_unique v = true) (AgentMemory.decisions m) /\
  Forall (fun v => keys_unique v = true) (AgentMemory.learnings m) /\
  keys_unique (VDict (AgentMemory.context m)) = true /\
  Forall (fun v => keys_unique v = true) (AgentMemory.next_steps m).
Proof.
  unfold memory_dict. rewrite keys_unique_dict, !Forall_cons, Forall_nil.
  cbn [snd]. rewrite !keys_unique_list.
  assert (NoDup ([("decisions", VList (AgentMemory.decisions m));
                  ("learnings", VList (AgentMemory.learnings m));
                  ("context", VDict (AgentMemory.context m));
                  ("next_steps", VList (AgentMemory.next_steps m))].*1)) as Hnd.
  { apply (bool_decide_unpack _). by vm_compute. }
  tauto.
Qed.

Lemma keys_unique_last5 (l : list pyval) :
  Forall (fun v => keys_unique v = true) l ->
  Forall (fun v => keys_unique v = true) (last5 l).
Proof. apply Forall_drop. Qed.

Lemma keys_unique_summary (m : AgentMemory.t) :
  keys_unique (memory_dict m) = true -> keys_unique (memory_summary m) = true.
Proof.
  rewrite keys_unique_memory. intros (Hd & Hl & Hc & Hn).
  unfold memory_summary. rewrite keys_unique_dict, !Forall_cons, Forall_nil.
  cbn [snd]. rewrite !keys_unique_list.
  split; [apply (bool_decide_unpack _); by vm_compute|].
  auto using keys_unique_last5.
Qed.

Lemma alist_set_keys {V} (k : string) (v : V) (d : list (string * V)) :
  (alist_set k v d).*1 = if decide (k ∈ d.*1) then d.*1 else d.*1 ++ [k].
Proof.
  induction d as [|[k' v'] d IH]; [done|]. cbn.
  destruct (decide (k' = k)) as [->|Hne].
  - rewrite decide_True by left. done.
  - cbn. rewrite IH. destruct (decide (k ∈ d.*1)) as [Hin|Hnin].
    + by rewrite decide_True by by right.
    + rewrite decide_False; [done|]. intros [?|?]%elem_of_cons; by subst.
Qed.

Lemma alist_set_Forall {V} (P : V -> Prop) (k : string) (v : V) (d : list (string * V)) :
  P v -> Forall (fun kv => P kv.2) d -> Forall (fun kv => P kv.2) (alist_set k v d).
Proof.
  intros Hv. induction 1 as [|[k' v'] d Hkv Hd IH]; cbn.
  - by constructor.
  - destruct (decide (k' = k)); constructor; done.
Qed.

Lemma keys_unique_dict_set (k : string) (v : pyval) (d : dict) :
  keys_unique v = true -> keys_unique (VDict d) = true ->
  keys_unique (VDict (dict_set k v d)) = true.
Proof.
  rewrite !keys_unique_dict. intros Hv [Hnd Hd]. split.
  - unfold dict_set. rewrite alist_set_keys. destruct (decide (k ∈ d.*1)); [done|].
    apply NoDup_app. split; [done|]. split; [|apply NoDup_singleton].
    intros x Hx ->%list_elem_of_singleton. done.
  - by apply (alist_set_Forall (fun v => keys_unique v = true)).
Qed.

(** What [load_memory] returns is read off the file system alone, and it
    leaves the world as it was. *)
Lemma load_memory_fs (path : string) (w : World) :
  load_memory path w =
  (w, match fs w !! path with
      | Some (JsonText j) => Returns (of_json j)
      | Some NotJson => Raises (Exn JSONDecodeError "Expecting value")
      | None => Returns default_memory
      end).
Proof.
  unfold load_memory, bind, file_exists, load_file, ret.
  destruct (fs w !! path) as [[j|]|] eqn:E.
  - rewrite bool_decide_eq_true_2 by eauto. by rewrite E.
  - rewrite bool_decide_eq_true_2 by eauto. by rewrite E.
  - rewrite bool_decide_eq_false_2; [done|]. by intros [? ?].
Qed.

Lemma in_sync_fs (w w' : World) (m : AgentMemory.t) :
  fs w' = fs w -> in_sync w m -> in_sync w' m.
Proof.
  unfold in_sync. rewrite !load_memory_fs. intros ->. intros H. f_equal.
  by injection H.
Qed.

(** A file that holds the dump of a value with distinct keys is loaded as
    that value. *)
Lemma load_memory_saved (doc : json) (v : pyval) (path : string) (w : World) :
  to_json v = Some doc -> keys_unique v = true ->
  load_memory path (memory_saved doc path w) = (memory_saved doc path w, Returns v).
Proof.
  intros Hdoc Hu. rewrite load_memory_fs. cbn [fs memory_saved].
  rewrite lookup_insert_eq. by rewrite (of_json_to_json v Hu doc Hdoc).
Qed.

(** One invocation: if the file of the memory holds the memory before it,
    it holds the memory after it, whether the invocation returned or raised. *)
Lemma process_message_in_sync_step message (context : option dict)
    (save_decision : bool) (w : World) (self : SoftwareTeamAgent.t) :
  let m := SoftwareTeamAgent.memory self in
  json_serializable (memory_dict m) ->
  keys_unique (memory_dict m) = true ->
  keys_unique (VDict (default [] context)) = true ->
  in_sync w m ->
  let r := process_message message context save_decision (w, self) in
  in_sync r.1.1 (SoftwareTeamAgent.memory r.1.2) /\
  keys_unique (memory_dict (SoftwareTeamAgent.memory r.1.2)) = true.
Proof.
  intros m Hmem Hu Hctx Hsync r. unfold r. clear r.
  assert (forall cause w1,
    let m' := with_learnings (AgentMemory.learnings m ++
                [learning_entry (isoformat (clock w1))
                   ("Error encountered: " +:+ exn_str cause)]) m in
    keys_unique (memory_dict m') = true) as Hul.
  { intros cause w1 m'. apply keys_unique_memory in Hu as (Hd & Hl & Hc & Hn).
    apply keys_unique_memory. repeat split; try done. cbn.
    apply Forall_app. split; [done|]. by apply Forall_singleton. }
  assert (forall cause w1,
    let s' := (wrap_failure cause (w1, self)).1 in
    in_sync s'.1 (SoftwareTeamAgent.memory s'.2) /\
    keys_unique (memory_dict (SoftwareTeamAgent.memory s'.2)) = true) as Hfail.
  { intros cause w1.
    destruct (wrap_failure_saved cause w1 self Hmem) as (doc & Hdoc & ->).
    cbn [fst snd with_memory SoftwareTeamAgent.memory]. split; [|apply Hul].
    unfold in_sync. cbn [with_learnings AgentMemory.memory_file].
    apply load_memory_saved; [done|apply Hul]. }
  rewrite process_message_steps. fold m.
  destruct (alist_get _ system_prompts) as [system|]; [|apply Hfail].
  destruct (to_json (VDict _)) as [fc|] eqn:Ectx; [|apply Hfail].
  cbv zeta. set (rq := request_of system fc message).
  destruct (llm_generate (requests w) rq) as [text|cause]; [|apply Hfail].
  destruct save_decision.
  - destruct (add_decision_saved text _ (request_sent rq w) m Hmem (ex_intro _ fc Ectx))
      as (doc & Hdoc & ->).
    cbn [fst snd with_memory SoftwareTeamAgent.memory].
    match goal with |- _ /\ ?G => assert G as Hud end.
    { apply keys_unique_memory in Hu as (Hd & Hl & Hc & Hn).
      apply keys_unique_memory. repeat split; try done. cbn [with_decisions AgentMemory.decisions].
      apply Forall_app. split; [done|]. apply Forall_singleton.
      unfold decision_entry. apply keys_unique_dict. split; [apply (bool_decide_unpack _); by vm_compute|].
      rewrite !Forall_cons, Forall_nil. cbn [snd]. repeat split; try done.
      apply keys_unique_dict_set; [|done]. apply keys_unique_summary.
      apply keys_unique_memory. by repeat split. }
    split; [|done]. unfold in_sync. cbn [with_decisions AgentMemory.memory_file].
    by apply load_memory_saved.
  - cbn [fst snd]. split; [|done].
    by apply (in_sync_fs w).
Qed.

(** ** A state that was loaded can be saved *)

Lemma json_nested_ind (P : json -> Prop) :
  P JNull ->
  (forall b, P (JBool b)) ->
  (forall z, P (JInt z)) ->
  (forall s, P (JStr s)) ->
  (forall l, Forall P l -> P (JList l)) ->
  (forall d, Forall (fun kv => P kv.2) d -> P (JObj d)) ->
  forall j, P j.
Proof.
  intros HNull HBool HInt HStr HList HObj.
  fix IH 1. intros [ | b | z | s | l | d].
  - exact HNull.
  - apply HBool.
  - apply HInt.
  - apply HStr.
  - apply HList. induction l as [|v l IHl]; constructor; [apply IH|exact IHl].
  - apply HObj. induction d as [|[k v] d IHd]; constructor; [apply IH|exact IHd].
Qed.

Lemma alist_get_Forall {V} (P : V -> Prop) (k : string) (v : V) (d : list (string * V)) :
  Forall (fun kv => P kv.2) d -> alist_get k d = Some v -> P v.
Proof.
  induction 1 as [|[k' v'] d Hkv Hd IH]; [done|]. cbn.
  destruct (decide (k' = k)); [by intros [= <-]|done].
Qed.

Lemma alist_set_NoDup {V} (k : string) (v : V) (d : list (string * V)) :
  NoDup d.*1 -> NoDup (alist_set k v d).*1.
Proof.
  intros Hnd. rewrite alist_set_keys. destruct (decide (k ∈ d.*1)); [done|].
  apply NoDup_app. split; [done|]. split; [|apply NoDup_singleton].
  intros x Hx ->%list_elem_of_singleton. done.
Qed.

Section Loaded.
(** A property of values that holds of the scalars, of a list when it holds
    of its elements, and of a dict with distinct keys when it holds of its
    values. *)
Variable Q : pyval -> Prop.
Hypothesis Q_none : Q VNone.
Hypothesis Q_bool : forall b, Q (VBool b).
Hypothesis Q_int : forall z, Q (VInt z).
Hypothesis Q_str : forall s, Q (VStr s).
Hypothesis Q_list : forall l, Q (VList l) <-> Forall Q l.
Hypothesis Q_dict_values : forall d, Q (VDict d) -> Forall (fun kv => Q kv.2) d.
Hypothesis Q_dict : forall d, NoDup d.*1 -> Forall (fun kv => Q kv.2) d -> Q (VDict d).

Lemma of_json_loaded (j : json) : Q (of_json j).
Proof.
  induction j as [ | b | z | s | l IH | d IH] using json_nested_ind; cbn [of_json]; auto.
  - apply Q_list. by apply Forall_fmap.
  - assert (forall acc : dict,
      NoDup acc.*1 -> Forall (fun kv => Q kv.2) acc ->
      let r := foldl (fun acc kv => dict_set kv.1 (of_json kv.2) acc) acc d in
      NoDup r.*1 /\ Forall (fun kv => Q kv.2) r) as Hfold.
    { induction IH as [|[k j] d Hj Hd IHd]; intros acc Hnd Hacc; [done|].
      cbn [foldl]. apply IHd.
      - by apply alist_set_NoDup.
      - by apply (alist_set_Forall Q). }
    destruct (Hfold [] (NoDup_nil_2) (Forall_nil_2 _)) as [Hnd Hall].
    by apply Q_dict.
Qed.

Lemma Milestone_init_loaded (kw : dict) (m : Milestone.t) :
  Forall (fun kv => Q kv.2) kw -> Milestone_init kw = Returns m ->
  Q (asdict m) /\ Milestone.feedback m <> VNone.
Proof.
  intros Hkw. unfold Milestone_init.
  destruct (unexpected_keyword _ _); [done|].
  destruct (dict_get "id" kw) as [i|] eqn:Ei; [|done].
  destruct (dict_get "description" kw) as [d|] eqn:Ed; [|done].
  destruct (dict_get "status" kw) as [s|] eqn:Es; [|done].
  destruct (dict_get "assigned_to" kw) as [a|] eqn:Ea; [|done].
  destruct (dict_get "created_at" kw) as [c|] eqn:Ec; [|done].
  intros [= <-].
  assert (Q (default VNone (dict_get "completed_at" kw))) as Hco.
  { destruct (dict_get "completed_at" kw) eqn:E; [|done].
    by apply (alist_get_Forall Q _ _ _ Hkw E). }
  assert (Q (default VNone (dict_get "feedback" kw))) as Hf.
  { destruct (dict_get "feedback" kw) eqn:E; [|done].
    by apply (alist_get_Forall Q _ _ _ Hkw E). }
  split.
  - apply Q_dict; [apply (bool_decide_unpack _); by vm_compute|].
    unfold asdict. rewrite !Forall_cons, Forall_nil.
    cbn [snd Milestone.id Milestone.description Milestone.status Milestone.assigned_to
         Milestone.created_at Milestone.completed_at Milestone.feedback].
    pose proof (fun k v => alist_get_Forall Q k v kw Hkw) as Hget.
    repeat split; try (by eapply Hget); try done.
    destruct (default VNone (dict_get "feedback" kw)); try done.
    by apply Q_list.
  - cbn [Milestone.feedback]. by destruct (default VNone (dict_get "feedback" kw)).
Qed.

Lemma comprehension_loaded (items : list pyval) (ms : list Milestone.t) :
  Forall Q items -> comprehension Milestone_splat items = Returns ms ->
  Forall (fun m => Q (asdict m)) ms /\
  Forall (fun m => Milestone.feedback m <> VNone) ms.
Proof.
  intros Hitems. revert ms. induction Hitems as [|v items Hv Hitems IH]; intros ms.
  - by intros [= <-].
  - cbn [comprehension]. destruct (Milestone_splat v) as [m|] eqn:Em; [|done].
    destruct (comprehension Milestone_splat items) as [ms'|]; [|done].
    intros [= <-]. destruct (IH ms' eq_refl) as [H1 H2].
    destruct v as [| | | | |kw|]; try done. cbn [Milestone_splat] in Em.
    destruct (Milestone_init_loaded kw m (Q_dict_values kw Hv) Em).
    split; by constructor.
Qed.

Lemma iterate_loaded (v : pyval) (items : list pyval) :
  Q v -> iterate v = Returns items -> Forall Q items.
Proof.
  intros Hv. destruct v as [| | |s|l|d|]; try done; intros [= <-].
  - apply Forall_fmap, Forall_forall. intros ? _. apply Q_str.
  - by apply Q_list.
  - apply Forall_fmap, Forall_forall. intros ? _. apply Q_str.
Qed.

Lemma from_dict_loaded (data : pyval) (st : ProjectState.t) :
  Q data -> from_dict data = Returns st ->
  Q (to_dict st) /\
  Forall (fun m => Milestone.feedback m <> VNone) (ProjectState.milestones st).
Proof.
  intros Hdata. destruct data as [| | | | |kw|]; try done.
  apply Q_dict_values in Hdata. unfold from_dict.
  destruct (dict_get "milestones" kw) as [v|] eqn:Ev; [|done].
  destruct (iterate v) as [items|] eqn:Eitems; [|done].
  destruct (comprehension Milestone_splat items) as [ms|] eqn:Ems; [|done].
  destruct (comprehension_loaded items ms) as [Hms Hfb]; [|done|].
  { apply (iterate_loaded v); [|done]. by apply (alist_get_Forall Q _ _ _ Hdata Ev). }
  unfold ProjectState_init. destruct (unexpected_keyword _ _); [done|].
  destruct (dict_get "project_id" kw) as [p|] eqn:Ep; [|done].
  destruct (dict_get "name" kw) as [n|] eqn:En; [|done].
  destruct (dict_get "requirements" kw) as [r|] eqn:Er; [|done].
  destruct (dict_get "status" kw) as [s|] eqn:Es; [|done].
  destruct (dict_get "created_at" kw) as [c|] eqn:Ec; [|done].
  destruct (dict_get "updated_at" kw) as [u|] eqn:Eu; [|done].
  destruct (dict_get "learning_points" kw) as [l|] eqn:El; [|done].
  destruct (dict_get "team_feedback" kw) as [t|] eqn:Et; [|done].
  destruct (dict_get "current_milestone_id" kw) as [cm|] eqn:Ecm; [|done].
  intros [= <-]. split; [|done].
  apply Q_dict; [apply (bool_decide_unpack _); by vm_compute|].
  unfold to_dict. rewrite !Forall_cons, Forall_nil.
  cbn [snd ProjectState.project_id ProjectState.name ProjectState.requirements
       ProjectState.status ProjectState.created_at ProjectState.updated_at
       ProjectState.milestones ProjectState.learning_points ProjectState.team_feedback
       ProjectState.current_milestone_id].
  pose proof (fun k v => alist_get_Forall Q k v kw Hdata) as Hget.
  repeat split; try (by eapply Hget).
  apply Q_list. by apply Forall_fmap.
Qed.

End Loaded.

Lemma from_dict_serializable (j : json) (st : ProjectState.t) :
  from_dict (of_json j) = Returns st ->
  json_serializable (to_dict st) /\
  keys_unique (to_dict st) = true /\
  Forall (fun m => Milestone.feedback m <> VNone) (ProjectState.milestones st).
Proof.
  intros H.
  assert (forall d, json_serializable (VDict d) -> Forall (fun kv => json_serializable kv.2) d)
    as Hs1 by (intros d; apply json_serializable_dict).
  assert (forall d, NoDup d.*1 -> Forall (fun kv => json_serializable kv.2) d ->
                    json_serializable (VDict d))
    as Hs2 by (intros d _; apply json_serializable_dict).
  assert (forall d, keys_unique (VDict d) = true ->
                    Forall (fun kv => keys_unique kv.2 = true) d)
    as Hu1 by (intros d; apply keys_unique_dict).
  assert (forall d, NoDup d.*1 -> Forall (fun kv => keys_unique kv.2 = true) d ->
                    keys_unique (VDict d) = true)
    as Hu2 by (intros d ? ?; by apply keys_unique_dict).
  destruct (from_dict_loaded json_serializable) with (data := of_json j) (st := st)
    as [Hser Hfb]; try done; try by eexists.
  { apply json_serializable_list. }
  { apply of_json_loaded; try done; try by eexists. apply json_serializable_list. }
  destruct (from_dict_loaded (fun v => keys_unique v = true))
    with (data := of_json j) (st := st) as [Huniq _]; try done.
  { apply keys_unique_list. }
  { apply of_json_loaded; try done. apply keys_unique_list. }
Qed.

(** X7.  Whatever [load_state] returns, [save_state] can write back, when
    the identifier asked for and the one the state holds name files: the
    state holds the values of the document, none of them a member of
    [ProjectStatus].  [save_state] returns, and a [load_state] of the project
    the state names returns the same state again. *)
Theorem load_then_save_then_load (self : ProjectStateManager) (project_id : string)
    (st : ProjectState.t) (w : World) :
  names_a_file project_id = true ->
  names_a_file (py_str (ProjectState.project_id st)) = true ->
  (load_state self project_id w).2 = Returns (Some st) ->
  exists w',
    save_state self st w = (w', Returns tt) /\
    load_state self (py_str (ProjectState.project_id st)) w' = (w', Returns (Some st)).
Proof.
  intros _ _. unfold load_state at 1, bind, file_exists, load_file, lift, ret.
  destruct (fs w !! state_path self project_id) as [[j|]|] eqn:E.
  2:{ rewrite bool_decide_eq_true_2 by eauto. by rewrite E. }
  2:{ rewrite bool_decide_eq_false_2; [done|]. by intros [? ?]. }
  rewrite bool_decide_eq_true_2 by eauto. rewrite E. cbn [fst snd].
  destruct (from_dict (of_json j)) as [st'|] eqn:Est; [|done]. cbn [snd].
  intros [= ->].
  destruct (from_dict_serializable j st Est) as ([doc Hdoc] & Hu & Hms).
  eexists. split.
  - unfold save_state, dump_file. by rewrite Hdoc.
  - unfold load_state, bind, file_exists, load_file, lift, ret. cbn [fs set_fs].
    rewrite lookup_insert_eq. rewrite bool_decide_eq_true_2 by eauto.
    cbn [fs set_fs]. rewrite lookup_insert_eq.
    by rewrite (of_json_to_json _ Hu _ Hdoc), (from_dict_to_dict st Hms).
Qed.

(** ** The driver *)





(** An agent that was built when its memory had no file yet: the file that
    [load_memory] would read is the memory the agent holds. *)
Lemma SoftwareTeamAgent_new_in_sync role project_id (w : World) :
  fs w !! memory_path role project_id = None ->
  in_sync w (SoftwareTeamAgent.memory (SoftwareTeamAgent_new role project_id)).
Proof.
  intros H. unfold in_sync. rewrite load_memory_fs.
  cbn [SoftwareTeamAgent_new SoftwareTeamAgent.memory AgentMemory_new
       AgentMemory.memory_file]. by rewrite H.
Qed.

(** X8.  Write-through.  Take a memory that can be dumped and whose file holds
    it.  After any number of invocations of its agent, returning or raising,
    with or without a decision to save, the file of the memory still holds
    the memory: a [load_memory] returns exactly the decisions, learnings,
    context and next steps that the agent has in memory. *)
Theorem invocations_keep_in_sync (calls : list invocation) (w : World)
    (self : SoftwareTeamAgent.t) :
  json_serializable (memory_dict (SoftwareTeamAgent.memory self)) ->
  keys_unique (memory_dict (SoftwareTeamAgent.memory self)) = true ->
  Forall (fun c => keys_unique (VDict (default [] (inv_context c))) = true) calls ->
  in_sync w (SoftwareTeamAgent.memory self) ->
  let s := after_invocations calls (w, self) in
  in_sync s.1 (SoftwareTeamAgent.memory s.2).
Proof.
  intros Hser Hu Hcalls Hsync. cbv zeta. revert w self Hser Hu Hsync.
  induction Hcalls as [|c calls Hc Hcalls IH]; intros w self Hser Hu Hsync; [done|].
  unfold after_invocations. cbn [foldl]. fold (after_invocations calls).
  destruct (process_message_in_sync_step (inv_message c) (inv_context c)
              (inv_save_decision c) w self Hser Hu Hc Hsync) as [Hsync' Hu'].
  pose proof (process_message_keeps_serializable (inv_message c) (inv_context c)
                (inv_save_decision c) w self Hser) as Hser'.
  destruct (process_message _ _ _ (w, self)) as [[w' self'] r]. cbn [fst snd] in *.
  by apply IH.
Qed.

(** ** What [from_dict] accepts *)

Lemma unexpected_keyword_None (allowed : list string) (kw : dict) :
  unexpected_keyword allowed kw = None ->
  forallb (fun k => bool_decide (k ∈ allowed)) (dict_keys kw) = true.
Proof.
  unfold unexpected_keyword. induction (dict_keys kw) as [|k ks IH]; [done|].
  cbn [forallb]. destruct (decide (k ∈ allowed)) as [Hin|Hnin].
  - rewrite filter_cons_False by (by intros Hn; apply Hn).
    intros H. by rewrite bool_decide_eq_true_2, IH.
  - by rewrite filter_cons_True.
Qed.

Lemma Milestone_splat_returns (v : pyval) (m : Milestone.t) :
  Milestone_splat v = Returns m -> is_milestone_document v = true.
Proof.
  destruct v as [| | | | |kw|]; try done. cbn [Milestone_splat is_milestone_document].
  unfold Milestone_init, has_keys.
  destruct (unexpected_keyword Milestone.fields kw) eqn:Eu; [done|].
  rewrite (unexpected_keyword_None _ _ Eu). cbn [forallb andb].
  destruct (dict_get "id" kw); [|done].
  destruct (dict_get "description" kw); [|done].
  destruct (dict_get "status" kw); [|done].
  destruct (dict_get "assigned_to" kw); [|done].
  by destruct (dict_get "created_at" kw).
Qed.

Lemma comprehension_returns (items : list pyval) (ms : list Milestone.t) :
  comprehension Milestone_splat items = Returns ms ->
  forallb is_milestone_document items = true.
Proof.
  revert ms. induction items as [|v items IH]; intros ms; [done|].
  cbn [comprehension forallb].
  destruct (Milestone_splat v) as [m|] eqn:Em; [|done].
  destruct (comprehension Milestone_splat items) as [ms'|]; [|done].
  intros _. by rewrite (Milestone_splat_returns v m Em), (IH ms' eq_refl).
Qed.

(** X10.  The converse of what [load_state] returns on a project document: when
    [from_dict] returns, its argument was a dict with the ten fields of
    [ProjectState] and no other key, and its milestones were a list of
    milestone objects, the state being the one the document describes.  The
    only other values of [milestones] it lets through are the two that
    iterate over nothing, the empty dict and the empty string, and they load
    as no milestones. *)
Theorem from_dict_returns_only_documents (data : pyval) (st : ProjectState.t) :
  from_dict data = Returns st ->
  has_keys ProjectState.fields ProjectState.fields (as_dict data) = true /\
  ((is_state_document data = true /\ st = state_of data) \/
   ((field "milestones" (as_dict data) = VDict [] \/
     field "milestones" (as_dict data) = VStr "") /\
    ProjectState.milestones st = [])).
Proof.
  destruct data as [| | | | |kw|]; try done. cbn [as_dict]. unfold from_dict.
  destruct (dict_get "milestones" kw) as [v|] eqn:Ev; [|done].
  destruct (iterate v) as [items|] eqn:Eitems; [|done].
  destruct (comprehension Milestone_splat items) as [ms|] eqn:Ems; [|done].
  intros Hinit.
  assert (has_keys ProjectState.fields ProjectState.fields kw = true) as Hkeys.
  { revert Hinit. unfold ProjectState_init, has_keys.
    destruct (unexpected_keyword ProjectState.fields kw) eqn:Eu; [done|].
    rewrite (unexpected_keyword_None _ _ Eu). unfold ProjectState.fields.
    cbn [forallb andb]. rewrite Ev.
    destruct (dict_get "project_id" kw); [|done].
    destruct (dict_get "name" kw); [|done].
    destruct (dict_get "requirements" kw); [|done].
    destruct (dict_get "status" kw); [|done].
    destruct (dict_get "created_at" kw); [|done].
    destruct (dict_get "updated_at" kw); [|done].
    destruct (dict_get "learning_points" kw); [|done].
    destruct (dict_get "team_feedback" kw); [|done].
    by destruct (dict_get "current_milestone_id" kw). }
  split; [done|].
  assert (ProjectState.milestones st = ms) as Hms.
  { revert Hinit. unfold ProjectState_init.
    destruct (unexpected_keyword ProjectState.fields kw); [done|].
    destruct (dict_get "project_id" kw); [|done].
    destruct (dict_get "name" kw); [|done].
    destruct (dict_get "requirements" kw); [|done].
    destruct (dict_get "status" kw); [|done].
    destruct (dict_get "created_at" kw); [|done].
    destruct (dict_get "updated_at" kw); [|done].
    destruct (dict_get "learning_points" kw); [|done].
    destruct (dict_get "team_feedback" kw); [|done].
    destruct (dict_get "current_milestone_id" kw); [|done].
    by intros [= <-]. }
  pose proof (comprehension_returns items ms Ems) as Hdocs.
  assert (field "milestones" kw = v) as Hfield by (unfold field; by rewrite Ev).
  destruct v as [| | |s|l|d|]; try done; injection Eitems as <-.
  - right. destruct s as [|c s]; [|done].
    injection Ems as <-. by split; [right|].
  - left.
    assert (is_state_document (VDict kw) = true) as Hdoc.
    { cbn [is_state_document]. by rewrite Hkeys, Ev. }
    split; [done|].
    pose proof (from_dict_document (VDict kw) Hdoc) as Hst.
    unfold from_dict in Hst. rewrite Ev in Hst. cbn [iterate] in Hst.
    rewrite Ems in Hst. rewrite Hinit in Hst. by injection Hst.
  - right. destruct d as [|[k x] d]; [|done].
    injection Ems as <-. by split; [left|].
Qed.

(** ** How the decisions grow *)

Lemma process_message_decisions message (context : option dict) (save_decision : bool)
    (w : World) (self : SoftwareTeamAgent.t) :
  let m := SoftwareTeamAgent.memory self in
  let m' := SoftwareTeamAgent.memory
              (process_message message context save_decision (w, self)).1.2 in
  AgentMemory.decisions m' = AgentMemory.decisions m \/
  exists timestamp text,
    AgentMemory.decisions m' =
      AgentMemory.decisions m ++
      [decision_entry timestamp text
         (dict_set "memory_summary" (memory_summary m) (default [] context))].
Proof.
  intros m m'. unfold m'. clear m'. rewrite process_message_steps. fold m.
  assert (forall cause w1 s1,
    AgentMemory.decisions (SoftwareTeamAgent.memory (wrap_failure cause (w1, s1)).1.2) =
    AgentMemory.decisions (SoftwareTeamAgent.memory s1)) as Hfail.
  { intros cause w1 s1.
    by destruct (wrap_failure_effect cause w1 s1) as (f & e & -> & _). }
  destruct (alist_get _ system_prompts) as [system|]; [|left; apply Hfail].
  destruct (to_json (VDict _)) as [fc|]; [|left; apply Hfail].
  cbv zeta. set (rq := request_of system fc message).
  destruct (llm_generate (requests w) rq) as [text|cause]; [|left; apply Hfail].
  destruct save_decision; [|by left].
  right. exists (isoformat (clock (request_sent rq w))), text.
  destruct (add_decision_effect text
              (dict_set "memory_summary" (memory_summary m) (default [] context))
              (request_sent rq w) m) as (f & r & -> & Hr).
  destruct Hr as [->|[-> _]]; [done|].
  by rewrite Hfail.
Qed.

Lemma nodes_alist_set (k : string) (v : pyval) (d : dict) :
  nodes v <= sum_list_with (fun kv => nodes kv.2) (alist_set k v d).
Proof.
  induction d as [|[k' v'] d IH]; cbn; [lia|].
  destruct (decide (k' = k)); cbn; lia.
Qed.

Lemma nodes_last5 (l : list pyval) :
  sum_list_with nodes (last5 l) <= sum_list_with nodes l.
Proof.
  unfold last5. rewrite <- (take_drop (length l - 5) l) at 3.
  rewrite sum_list_with_app. lia.
Qed.

(** A decision entry holds, in the summary its context carries, the last
    five decisions recorded before it. *)
Lemma nodes_decision_entry timestamp text (m : AgentMemory.t) (context : dict) :
  sum_list_with nodes (last5 (AgentMemory.decisions m)) <
  nodes (decision_entry timestamp text
           (dict_set "memory_summary" (memory_summary m) context)).
Proof.
  pose proof (nodes_alist_set "memory_summary" (memory_summary m) context) as H.
  assert (sum_list_with nodes (last5 (AgentMemory.decisions m)) < nodes (memory_summary m))
    as Hsummary.
  { unfold memory_summary. cbn [nodes sum_list_with snd]. lia. }
  unfold decision_entry, dict_set.
  change (nodes (VDict ?d)) with (S (sum_list_with (fun kv => nodes kv.2) d)).
  cbn [sum_list_with snd].
  change (nodes (VDict ?d)) with (S (sum_list_with (fun kv => nodes kv.2) d)).
  lia.
Qed.

Lemma last5_app {A} (pre suf : list A) :
  length suf <= 5 -> exists x, last5 (pre ++ suf) = x ++ suf.
Proof.
  intros H. unfold last5. rewrite length_app.
  exists (drop (length pre + length suf - 5) pre).
  rewrite drop_app_le by lia. done.
Qed.

Lemma after_invocations_cons (c : invocation) (calls : list invocation)
    (s : World * SoftwareTeamAgent.t) :
  after_invocations (c :: calls) s =
  after_invocations calls
    (process_message (inv_message c) (inv_context c) (inv_save_decision c) s).1.
Proof. done. Qed.

(** The invariant of the list of decisions: an entry recorded by an
    invocation outweighs the five entries before it taken together. *)
Lemma after_invocations_decisions (calls : list invocation) (n : nat) (w : World)
    (self : SoftwareTeamAgent.t) :
  let grown (all : list pyval) :=
    forall j d, n <= j -> all !! j = Some d ->
      sum_list_with nodes (last5 (take j all)) < nodes d in
  n <= length (AgentMemory.decisions (SoftwareTeamAgent.memory self)) ->
  grown (AgentMemory.decisions (SoftwareTeamAgent.memory self)) ->
  let s := after_invocations calls (w, self) in
  take n (AgentMemory.decisions (SoftwareTeamAgent.memory s.2)) =
    take n (AgentMemory.decisions (SoftwareTeamAgent.memory self)) /\
  grown (AgentMemory.decisions (SoftwareTeamAgent.memory s.2)).
Proof.
  cbv zeta. revert w self.
  induction calls as [|c calls IH]; intros w self Hlen Hgrown; [done|].
  rewrite after_invocations_cons.
  pose proof (process_message_decisions (inv_message c) (inv_context c)
                (inv_save_decision c) w self) as Hstep. cbv zeta in Hstep.
  destruct (process_message _ _ _ (w, self)) as [[w' self'] r]. cbn [fst snd] in *.
  set (ds := AgentMemory.decisions (SoftwareTeamAgent.memory self)) in *.
  destruct Hstep as [Hsame|(timestamp & text & Hmore)].
  - rewrite <- Hsame. apply IH; by rewrite Hsame.
  - destruct (IH w' self') as [Htake Hall].
    + rewrite Hmore, length_app. lia.
    + rewrite Hmore. intros j d Hj Hd.
      destruct (decide (j < length ds)) as [Hlt|Hge].
      * rewrite lookup_app_l in Hd by done.
        rewrite take_app_le by lia. by apply Hgrown.
      * rewrite lookup_app_r in Hd by lia.
        destruct (j - length ds) as [|k] eqn:Ek; [|done].
        injection Hd as <-. assert (j = length ds) as -> by lia.
        rewrite take_app_length. apply nodes_decision_entry.
    + split; [|done]. rewrite Htake, Hmore. by rewrite take_app_le by lia.
Qed.

(** X11.  Every decision that an invocation records carries, in the summary
    of its context, the five decisions recorded before it, each with the
    summary it carries itself.  Whatever the invocations and their
    outcomes, the decisions that were there stay, every new entry outweighs
    the five entries before it taken together, and so is more than twice
    the entry two places before it: what [save_memory] writes, and what the
    next prompt renders, grows geometrically with the number of decisions. *)
Theorem decisions_outweigh_their_predecessors (calls : list invocation) (w : World)
    (self : SoftwareTeamAgent.t) :
  let before := AgentMemory.decisions (SoftwareTeamAgent.memory self) in
  let s := after_invocations calls (w, self) in
  let all := AgentMemory.decisions (SoftwareTeamAgent.memory s.2) in
  take (length before) all = before /\
  (forall j d, length before <= j -> all !! j = Some d ->
     sum_list_with nodes (last5 (take j all)) < nodes d) /\
  (forall j d d2, length before < j -> all !! j = Some d -> all !! (j - 2) = Some d2 ->
     2 <= j -> 2 * nodes d2 < nodes d).
Proof.
  intros before s all.
  destruct (after_invocations_decisions calls (length before) w self) as [Htake Hgrown].
  { done. }
  { intros j d Hj Hd. apply lookup_lt_Some in Hd. fold before in Hd. lia. }
  fold s all in Htake, Hgrown. fold before in Htake. rewrite firstn_all in Htake.
  split; [done|]. split; [done|].
  intros j d d2 Hj Hd Hd2 Hj2.
  destruct (all !! (j - 1)) as [d1|] eqn:Hd1.
  2:{ apply lookup_ge_None in Hd1. apply lookup_lt_Some in Hd. lia. }
  assert (take j all = take (j - 2) all ++ [d2; d1]) as Hsplit.
  { replace j with (S (S (j - 2))) at 1 by lia.
    rewrite (take_S_r _ (S (j - 2)) d1) by (by replace (S (j - 2)) with (j - 1) by lia).
    rewrite (take_S_r _ (j - 2) d2) by done. by rewrite <- app_assoc. }
  assert (take (j - 1) all = take (j - 2) all ++ [d2]) as Hsplit1.
  { replace (j - 1) with (S (j - 2)) by lia. by rewrite (take_S_r _ (j - 2) d2). }
  pose proof (Hgrown j d ltac:(lia) Hd) as H.
  pose proof (Hgrown (j - 1) d1 ltac:(lia) Hd1) as H1.
  destruct (last5_app (take (j - 2) all) [d2; d1]) as [x Hx]; [simpl; lia|].
  destruct (last5_app (take (j - 2) all) [d2]) as [y Hy]; [simpl; lia|].
  rewrite Hsplit, Hx, sum_list_with_app in H.
  rewrite Hsplit1, Hy, sum_list_with_app in H1.
  cbn [sum_list_with] in H, H1. lia.
Qed.

End Program.

(** * Scenarios *)

(** C2 (defect).  The specification: when the four roles succeed, as with a
    service that always answers "ok", [process_milestone] returns the mapping
    of the four roles to "ok" and the milestone is COMPLETED with a
    completion timestamp and four feedback entries.  The code, on
    [process_milestone("Add login")] with that service: the call raises
    [TypeError] at its first checkpoint; it returns no mapping, sends no
    request to the service, and leaves the milestone IN_PROGRESS, without
    completion timestamp and without feedback. *)
Theorem all_roles_ok_scenario :
  let r := process_milestone tick_isoformat always_ok str_other_none "Add login"
             (started tick_isoformat str_other_none) in
  r.2 = Raises (Exn TypeError "Object of type ProjectStatus is not JSON serializable") /\
  requests r.1.1 = [] /\
  (ProjectState.milestones <$> SoftwareTeam.state r.1.2) =
    Some [ {| Milestone.id := VStr "milestone_1";
              Milestone.description := VStr "Add login";
              Milestone.status := VEnum IN_PROGRESS;
              Milestone.assigned_to := VStr "CTO";
              Milestone.created_at := VStr "T1";
              Milestone.completed_at := VNone;
              Milestone.feedback := VList [] |} ] /\
  fs r.1.1 !! "project_states/p.json" = Some NotJson.
Proof. vm_compute. by repeat split. Qed.

(** C3 (defect).  The specification: when the call of a role fails, as the
    Tester's here, that failure reaches the caller, and the persisted
    milestone is ON_HOLD with one feedback entry per earlier role, CEO then
    CTO.  The code, on [process_milestone("Add login")] with a service that
    fails for the Tester: the call raises [TypeError] at its first checkpoint,
    before any role; the service is never asked, the milestone stays
    IN_PROGRESS without feedback in memory, and the project's path holds a
    text that is no document. *)
Theorem tester_fails_scenario :
  let r := process_milestone tick_isoformat tester_fails str_other_none "Add login"
             (started tick_isoformat str_other_none) in
  r.2 = Raises (Exn TypeError "Object of type ProjectStatus is not JSON serializable") /\
  requests r.1.1 = [] /\
  (ProjectState.milestones <$> SoftwareTeam.state r.1.2) =
    Some [ {| Milestone.id := VStr "milestone_1";
              Milestone.description := VStr "Add login";
              Milestone.status := VEnum IN_PROGRESS;
              Milestone.assigned_to := VStr "CTO";
              Milestone.created_at := VStr "T1";
              Milestone.completed_at := VNone;
              Milestone.feedback := VList [] |} ] /\
  fs r.1.1 !! "project_states/p.json" = Some NotJson.
Proof. vm_compute. by repeat split. Qed.

(** The same call on a team whose state was loaded from the document of
    project "p": it raises at the first checkpoint as well, and the document
    is lost. *)
Lemma loaded_project_scenario :
  let team := set_state (Some (state_of (of_json example_document))) (SoftwareTeam_new "p") in
  let r := process_milestone tick_isoformat always_ok str_other_none "Add login"
             (world_with_document, team) in
  load_state default_manager "p" world_with_document =
    (world_with_document, Returns (SoftwareTeam.state team)) /\
  r.2 = Raises (Exn TypeError "Object of type ProjectStatus is not JSON serializable") /\
  requests r.1.1 = [] /\
  milestone_ids (SoftwareTeam.state r.1.2) =
    [VStr "milestone_1"; VStr "milestone_2"] /\
  fs r.1.1 !! "project_states/p.json" = Some NotJson.
Proof. vm_compute. by repeat split. Qed.

(** [save_then_load_raises] at a valid state, saved on an empty file system. *)
Lemma save_then_load_raises_witness :
  ProjectState.status example_state = VEnum IN_PROGRESS /\
  exists w',
    save_state str_other_none default_manager example_state empty_world =
      (w', Raises not_serializable) /\
    fs w' !! state_path default_manager "p" = Some NotJson /\
    load_state default_manager "p" w' =
      (w', Raises (Exn JSONDecodeError "Expecting value")).
Proof.
  split; [reflexivity|].
  exact (save_then_load_raises str_other_none default_manager example_state
           IN_PROGRESS empty_world eq_refl).
Defined.

(** [load_state_outcome] at three identifiers: "q", which has no file, and
    "p", which has its document, on the file system that holds the example
    document; and "p" again on the file system that
    [start_new_project("X", "reqs")] has left, where no document was ever
    saved. *)
Lemma load_state_outcome_witness :
  let w := (started tick_isoformat str_other_none).1 in
  (names_a_file "q" = true /\
   fs world_with_document !! state_path default_manager "q" = None /\
   load_state default_manager "q" world_with_document = (world_with_document, Returns None)) /\
  (names_a_file "p" = true /\
   fs world_with_document !! state_path default_manager "p" = Some (JsonText example_document) /\
   is_state_document (of_json example_document) = true /\
   exists state items,
     load_state default_manager "p" world_with_document =
       (world_with_document, Returns (Some state)) /\
     state = state_of (of_json example_document) /\
     field "milestones" (as_dict (of_json example_document)) = VList items /\
     ProjectState.milestones state = milestone_of <$> items /\
     length (ProjectState.milestones state) = length items) /\
  (fs w !! state_path default_manager "p" = Some NotJson /\
   exists e,
     load_state default_manager "p" w = (w, Raises e) /\
     exn_class_of e = JSONDecodeError).
Proof.
  intros w. split; [|split].
  - split; [reflexivity|]. split; [reflexivity|].
    exact (load_state_outcome default_manager "q" world_with_document eq_refl).
  - split; [reflexivity|]. split; [reflexivity|]. split; [reflexivity|].
    exact (proj2 (proj2 (load_state_outcome default_manager "p" world_with_document eq_refl))
             eq_refl).
  - split; [reflexivity|].
    exact (load_state_outcome default_manager "p" w eq_refl).
Defined.


(** [process_message_memory_refused] at a CEO agent whose memory holds a
    member of [ProjectStatus] in its context. *)
Lemma process_message_memory_refused_witness :
  let self :=
    {| SoftwareTeamAgent.role := "CEO";
       SoftwareTeamAgent.project_id := "p";
       SoftwareTeamAgent.memory :=
         {| AgentMemory.memory_file := memory_path "CEO" "p";
            AgentMemory.decisions := [];
            AgentMemory.learnings := [];
            AgentMemory.context := [("phase", VEnum TESTING)];
            AgentMemory.next_steps := [] |} |} in
  let r := process_message tick_isoformat always_ok "Plan" None true (empty_world, self) in
  to_json (memory_dict (SoftwareTeamAgent.memory self)) = None /\
  match r.2 with
  | Returns _ => true = false /\ r.1.2 = self
  | Raises e =>
      e = not_serializable /\
      fs r.1.1 !! AgentMemory.memory_file (SoftwareTeamAgent.memory self) = Some NotJson
  end.
Proof.
  intros self r. split; [reflexivity|].
  apply (process_message_memory_refused tick_isoformat always_ok "Plan" None true
           empty_world self).
  reflexivity.
Defined.

(** [resume_project_outcome] at the team of project "p" with the state of
    the example document and four fresh agents, served with "ok". *)
Lemma resume_project_outcome_witness :
  let st := state_of (of_json example_document) in
  let team := set_state (Some st) (SoftwareTeam_new "p") in
  let r := resume_project tick_isoformat always_ok (world_with_document, team) in
  let agents := SoftwareTeam.agents team in
  SoftwareTeam.state team = Some st /\
  NoDup (SoftwareTeam.agents team).*1 /\
  Forall (fun ka => json_serializable (memory_dict (SoftwareTeamAgent.memory ka.2)))
    (SoftwareTeam.agents team) /\
  SoftwareTeam.state r.1.2 = Some st /\
  exists rqs,
    requests r.1.1 = requests world_with_document ++ rqs /\
    match r.2 with
    | Returns _ =>
        Forall2 (fun ka ka' => ka'.1 = ka.1 /\ reviewed ka.2 ka'.2)
          agents (SoftwareTeam.agents r.1.2) /\
        length rqs = length agents
    | Raises e =>
        exists pre k a post pre' a',
          agents = pre ++ (k, a) :: post /\
          SoftwareTeam.agents r.1.2 = pre' ++ (k, a') :: post /\
          Forall2 (fun ka ka' => ka'.1 = ka.1 /\ reviewed ka.2 ka'.2) pre pre' /\
          failed a a' e /\
          length pre <= length rqs <= S (length pre)
    end.
Proof.
  intros st team r agents.
  assert (NoDup (SoftwareTeam.agents team).*1) as Hnodup.
  { apply (bool_decide_unpack _). vm_compute. exact I. }
  assert (Forall (fun ka => json_serializable (memory_dict (SoftwareTeamAgent.memory ka.2)))
            (SoftwareTeam.agents team)) as Hmem.
  { repeat constructor; eexists; reflexivity. }
  split; [reflexivity|]. split; [exact Hnodup|]. split; [exact Hmem|].
  exact (resume_project_outcome tick_isoformat always_ok st world_with_document team
           eq_refl Hnodup Hmem).
Defined.

(** [resume_project_state_refused] at the team of project "p" right after
    [start_new_project]. *)
Lemma resume_project_state_refused_witness :
  let w := (started tick_isoformat str_other_none).1 in
  let team := (started tick_isoformat str_other_none).2 in
  let st := new_project_state "p" "X" "reqs" "T0" ["CEO"; "CTO"; "Tester"; "Coder"] in
  let a := SoftwareTeamAgent_new "CEO" "p" in
  let rest := [("CTO", SoftwareTeamAgent_new "CTO" "p");
               ("Tester", SoftwareTeamAgent_new "Tester" "p");
               ("Coder", SoftwareTeamAgent_new "Coder" "p")] in
  let r := resume_project tick_isoformat always_ok (w, team) in
  SoftwareTeam.state team = Some st /\
  to_json (to_dict st) = None /\
  SoftwareTeam.agents team = ("CEO", a) :: rest /\
  json_serializable (memory_dict (SoftwareTeamAgent.memory a)) /\
  exists a' e,
    r.2 = Raises e /\
    failed a a' e /\
    SoftwareTeam.agents r.1.2 = ("CEO", a') :: rest /\
    requests r.1.1 = requests w /\
    SoftwareTeam.state r.1.2 = Some st.
Proof.
  intros w team st a rest r.
  assert (json_serializable (memory_dict (SoftwareTeamAgent.memory a))) as Hmem.
  { eexists. reflexivity. }
  split; [reflexivity|]. split; [reflexivity|]. split; [reflexivity|].
  split; [exact Hmem|].
  exact (resume_project_state_refused tick_isoformat always_ok st "CEO" a rest w team
           eq_refl eq_refl eq_refl Hmem).
Defined.

(** [save_then_load_without_enum] at the state of the example document,
    saved on an empty file system. *)
Lemma save_then_load_without_enum_witness :
  let st := state_of (of_json example_document) in
  names_a_file (py_str str_other_none (ProjectState.project_id st)) = true /\
  json_serializable (to_dict st) /\
  keys_unique (to_dict st) = true /\
  Forall (fun m => Milestone.feedback m <> VNone) (ProjectState.milestones st) /\
  exists w',
    save_state str_other_none default_manager st empty_world = (w', Returns tt) /\
    load_state default_manager (py_str str_other_none (ProjectState.project_id st)) w' =
      (w', Returns (Some st)).
Proof.
  intros st.
  assert (json_serializable (to_dict st)) as Hser.
  { eexists. reflexivity. }
  assert (Forall (fun m => Milestone.feedback m <> VNone) (ProjectState.milestones st))
    as Hfb.
  { repeat constructor. discriminate. }
  split; [reflexivity|]. split; [exact Hser|]. split; [reflexivity|]. split; [exact Hfb|].
  exact (save_then_load_without_enum str_other_none default_manager st empty_world
           eq_refl Hser eq_refl Hfb).
Defined.

(** [load_then_save_then_load] at the file system that holds the example
    document of project "p". *)
Lemma load_then_save_then_load_witness :
  let st := state_of (of_json example_document) in
  names_a_file "p" = true /\
  names_a_file (py_str str_other_none (ProjectState.project_id st)) = true /\
  (load_state default_manager "p" world_with_document).2 = Returns (Some st) /\
  exists w',
    save_state str_other_none default_manager st world_with_document = (w', Returns tt) /\
    load_state default_manager (py_str str_other_none (ProjectState.project_id st)) w' =
      (w', Returns (Some st)).
Proof.
  intros st. split; [reflexivity|]. split; [reflexivity|]. split; [reflexivity|].
  exact (load_then_save_then_load str_other_none default_manager "p" st
           world_with_document eq_refl eq_refl eq_refl).
Defined.

(** [invocations_keep_in_sync] at a fresh Tester agent on an empty file
    system, with the service that fails for the Tester: an invocation that
    would save its decision and one that would not, both recorded as
    learnings. *)
Lemma invocations_keep_in_sync_witness :
  let self := SoftwareTeamAgent_new "Tester" "p" in
  let calls :=
    [ {| inv_message := "Plan";
         inv_context := Some [("goal", VStr "login")];
         inv_save_decision := true |};
      {| inv_message := "Review";
         inv_context := None;
         inv_save_decision := false |} ] in
  let s := after_invocations tick_isoformat tester_fails calls (empty_world, self) in
  json_serializable (memory_dict (SoftwareTeamAgent.memory self)) /\
  keys_unique (memory_dict (SoftwareTeamAgent.memory self)) = true /\
  Forall (fun c => keys_unique (VDict (default [] (inv_context c))) = true) calls /\
  in_sync empty_world (SoftwareTeamAgent.memory self) /\
  in_sync s.1 (SoftwareTeamAgent.memory s.2).
Proof.
  intros self calls s.
  assert (json_serializable (memory_dict (SoftwareTeamAgent.memory self))) as Hser.
  { eexists. reflexivity. }
  assert (Forall (fun c => keys_unique (VDict (default [] (inv_context c))) = true) calls)
    as Hcalls.
  { repeat constructor. }
  assert (in_sync empty_world (SoftwareTeamAgent.memory self)) as Hsync.
  { reflexivity. }
  split; [exact Hser|]. split; [reflexivity|]. split; [exact Hcalls|].
  split; [exact Hsync|].
  exact (invocations_keep_in_sync tick_isoformat tester_fails calls empty_world self
           Hser eq_refl Hcalls Hsync).
Defined.

(** [from_dict_returns_only_documents] at the example document. *)
Lemma from_dict_returns_only_documents_witness :
  let data := of_json example_document in
  let st := state_of data in
  from_dict data = Returns st /\
  has_keys ProjectState.fields ProjectState.fields (as_dict data) = true /\
  ((is_state_document data = true /\ st = state_of data) \/
   ((field "milestones" (as_dict data) = VDict [] \/
     field "milestones" (as_dict data) = VStr "") /\
    ProjectState.milestones st = [])).
Proof.
  intros data st. split; [reflexivity|].
  exact (from_dict_returns_only_documents data st eq_refl).
Defined.

(** [start_new_project_raises] at the team of project "p" on the file system
    that holds the example document: the document is lost. *)
Lemma start_new_project_raises_witness :
  let team := SoftwareTeam_new "p" in
  let w' := {| fs := <[state_path default_manager "p" := NotJson]> (fs world_with_document);
               clock := 1;
               requests := [] |} in
  names_a_file (SoftwareTeam.project_id team) = true /\
  fs world_with_document !! state_path default_manager "p" = Some (JsonText example_document) /\
  start_new_project tick_isoformat str_other_none "X" "reqs" (world_with_document, team) =
    ((w',
      set_state
        (Some (new_project_state "p" "X" "reqs" "T0" ["CEO"; "CTO"; "Tester"; "Coder"]))
        team),
     Raises not_serializable) /\
  exists e,
    load_state default_manager "p" w' = (w', Raises e) /\
    exn_class_of e = JSONDecodeError.
Proof.
  intros team w'. split; [reflexivity|]. split; [reflexivity|].
  exact (start_new_project_raises tick_isoformat str_other_none "X" "reqs"
           world_with_document team eq_refl).
Defined.
